(** * flake8_setka_linter: the naming-convention checker, embedded and verified

    A shallow embedding of [src/flake8_setka_linter.py]: the [Plugin] class
    with its rule table, the generator [Plugin.run], and the two name
    resolvers [get_full_name] / [get_base_type_name].

    Conventions of the embedding.
    - A Python [str] is a [string], read as its UTF-8 bytes.  The string
      operations the program uses ([==], [startswith], [endswith],
      [split(".")], [format]) all take ASCII patterns, and an ASCII byte never
      occurs inside a multi-byte UTF-8 sequence, so they agree byte-wise with
      their code-point versions.
    - An [ast.AST] object is a [node]; only the classes the program tests with
      [isinstance] have constructors of their own.
    - A generator is its [outcome]: what it yielded, in order, and the
      exception (if any) that ended it.
    - [run] is the generator as a function of the plugin object; [run_st]
      is the same code with the object threaded through it, to show what it
      leaves of the object; [run_within] is the same code again with the
      interpreter's frames counted, to show where [RecursionError] comes
      in.  Both agree with [run] ([run_reproducible], [run_within_enough]). *)

From Equations Require Import Equations.
From Stdlib Require Import List String Ascii ZArith Arith Lia Bool.
From Stdlib Require Import Permutation DecimalString DecimalZ.
Set Warnings "-register-all".
Import ListNotations.
Local Open Scope string_scope.
Local Open Scope list_scope.

(** ** Python string primitives *)

Module PyStr.

(** [bool(s)]: a string is truthy iff it is not empty. *)
Definition truthy (s : string) : bool :=
  match s with
  | EmptyString => false
  | String _ _ => true
  end.

(** [s.startswith(p)]. *)
Definition startswith (s p : string) : bool := String.prefix p s.

(** [s.endswith(p)]. *)
Definition endswith (s p : string) : bool :=
  (String.length p <=? String.length s)%nat
  && String.eqb (substring (String.length s - String.length p)
                           (String.length p) s) p.

(** [s.split(sep)] for a one-character separator: never the empty list,
    empty segments are kept. *)
Fixpoint split (sep : ascii) (s : string) : list string :=
  match s with
  | EmptyString => [EmptyString]
  | String c rest =>
      if Ascii.eqb c sep then EmptyString :: split sep rest
      else match split sep rest with
           | seg :: segs => String c seg :: segs
           | [] => [String c EmptyString]
           end
  end.

(** [template.format(a1, ..., an)] for templates whose only replacement fields
    are the automatic [{}]: each [{}] takes the next argument.  Every call
    site of the program passes exactly as many arguments as its template
    has fields, so the exhausted-arguments case (an [IndexError] in Python)
    is never reached; it leaves the field empty here. *)
Fixpoint format (template : string) (args : list string) : string :=
  match template with
  | String "{" (String "}" rest) =>
      match args with
      | a :: args' => a ++ format rest args'
      | [] => format rest []
      end
  | String c rest => String c (format rest args)
  | EmptyString => EmptyString
  end.

End PyStr.

(** ** The syntax tree *)

(** [ast.AST] objects.  [Name], [Attribute], [Call] and [Assign] are the four
    classes the program distinguishes; every other class is [Other], tagged
    with its class name and carrying its child nodes in field order.
    A [keyword] argument of a call is an [Other "keyword" [value]] node.  The
    expression-context markers ([Load], [Store], the [ctx] field of names
    and attributes) are left out: they are childless and never an [Assign],
    so [run] skips them and they do not change the order in which [ast.walk]
    reaches the other nodes. *)
Inductive node : Type :=
| Name (id : string)
| Attribute (value : node) (attr : string)
| Call (func : node) (args : list node) (keywords : list node)
| Assign (lineno col_offset : Z) (targets : list node) (value : node)
| Other (kind : string) (children : list node).

(** [type(node).__name__]. *)
Definition type_name (n : node) : string :=
  match n with
  | Name _ => "Name"
  | Attribute _ _ => "Attribute"
  | Call _ _ _ => "Call"
  | Assign _ _ _ _ => "Assign"
  | Other kind _ => kind
  end.

(** [ast.iter_child_nodes]: the direct children, in field order. *)
Definition iter_child_nodes (n : node) : list node :=
  match n with
  | Name _ => []
  | Attribute value _ => [value]
  | Call func args keywords => func :: args ++ keywords
  | Assign _ _ targets value => targets ++ [value]
  | Other _ children => children
  end.

(** ** Exceptions and results *)

Inductive exn : Type :=
| ValueError (unexpected : string)   (* "Unexpected node type: <class ...>" *)
| AttributeError (obj attribute : string)
                                     (* "'obj' object has no attribute '...'" *)
| RecursionError.                    (* "maximum recursion depth exceeded" *)

Inductive result (A : Type) : Type :=
| Ok (a : A)
| Raise (e : exn).
Arguments Ok {A} a.
Arguments Raise {A} e.

Definition bind {A B} (r : result A) (k : A -> result B) : result B :=
  match r with
  | Ok a => k a
  | Raise e => Raise e
  end.

Notation "x <- r ;; k" := (bind r (fun x => k))
  (at level 61, r at next level, right associativity).

(** ** The name resolvers *)

(** [Plugin.get_full_name] (lines 106-118), as it runs while the
    interpreter has a frame for each nested call; [get_full_name_within]
    below counts the frames. *)
Fixpoint get_full_name (n : node) : result string :=
  match n with
  | Name id => Ok id
  | Attribute value attr =>
      value <- get_full_name value ;;
      Ok (if PyStr.truthy value
          then PyStr.format "{}.{}" [value; attr]
          else attr)
  | Call func _ _ => get_full_name func
  | _ => Raise (ValueError (type_name n))
  end.

(** [Plugin.get_base_type_name] (lines 120-126). *)
Definition get_base_type_name (n : node) : result string :=
  full_name <- get_full_name n ;;
  Ok (last (PyStr.split "." full_name) "").


(** ** Predicates over Python values that may raise *)

(** [getattr(s, method)(arg)] for a [str] receiver: the two methods the rule
    table means to call exist, any other attribute name raises
    [AttributeError] when it is looked up. *)
Definition call_method (s method arg : string) : result bool :=
  if String.eqb method "startswith" then Ok (PyStr.startswith s arg)
  else if String.eqb method "endswith" then Ok (PyStr.endswith s arg)
  else Raise (AttributeError "str" method).

(** [a or b] on booleans: [b] is evaluated only when [a] is false. *)
Definition por (a b : result bool) : result bool :=
  x <- a ;; if x then Ok true else b.

(** [a and b]. *)
Definition pand (a b : result bool) : result bool :=
  x <- a ;; if x then b else Ok false.

(** [not a]. *)
Definition pnot (a : result bool) : result bool :=
  x <- a ;; Ok (negb x).

(** [s == t]. *)
Definition peq (s t : string) : result bool := Ok (String.eqb s t).

(** ** Field descriptors, rules, diagnostics *)

(** The [FieldInfo] dictionary (lines 7-11). *)
Record FieldInfo : Type := mkFieldInfo {
  name : string;
  column_type_node : node;
  base_type : string;
  full_type : string
}.

(** The [Rule] dictionary (lines 14-18).  Both predicates are Python
    callables, so both may raise. *)
Record Rule : Type := mkRule {
  error_code : string;
  condition : FieldInfo -> result bool;
  assertion : FieldInfo -> result bool;
  message : string
}.

(** [type(self)], the fourth component of every yielded tuple. *)
Inductive pytype : Type := PluginClass.

(** The tuple yielded on lines 98-104. *)
Record diagnostic : Type := mkDiagnostic {
  line : Z;
  column : Z;
  text : string;
  origin : pytype
}.

(** ** The rule table (lines 29-65) *)

Definition STK001 : Rule := {|
  error_code := "STK001";
  condition := fun f => peq (base_type f) "DateTime";
  assertion := fun f => por (call_method (name f) "endswith" "_at")
                            (call_method (name f) "endswith" "_dt");
  message := "Поле '{}' имеет тип DateTime, должно оканчиваться на '_at' или '_dt'"
|}.

Definition STK002 : Rule := {|
  error_code := "STK002";
  condition := fun f => peq (base_type f) "Date";
  assertion := fun f => call_method (name f) "endswith" "_date";
  message := "Поле '{}' имеет тип Date, должно оканчиваться на '_date'"
|}.

Definition STK003 : Rule := {|
  error_code := "STK003";
  condition := fun f => peq (name f) "type";
  assertion := fun f => peq (full_type f) "sqlalchemy.Enum";
  message := "Поле '{}' должно быть определено как Enum"
|}.

Definition STK004 : Rule := {|
  error_code := "STK004";
  condition := fun f => por (peq (name f) "id")
                       (por (call_method (name f) "endswith" "_id")
                            (call_method (name f) "startswith" "id_"));
  assertion := fun f => peq (full_type f) "sqlalchemy.UUID";
  message := "Поле '{}' должно использовать UUID вместо Integer"
|}.

(** Line 60 spells the method [startwith]. *)
Definition STK005 : Rule := {|
  error_code := "STK005";
  condition := fun f => peq (base_type f) "bool";
  assertion := fun f => pnot (por (call_method (name f) "startwith" "is_")
                                  (call_method (name f) "startwith" "is_"));
  message := "Поле '{}' должно использовать UUID вместо Integer"
|}.

(** ** Generators *)

(** What running a piece of generator code amounts to: the values it yielded,
    in order, and the exception that ended it, if one did.  [built] is a
    ghost log of the [field_info] dictionaries constructed on line 87; the
    program's consumer sees [yielded] and [raised] only. *)
Record outcome : Type := mkOutcome {
  built : list FieldInfo;
  yielded : list diagnostic;
  raised : option exn
}.

Definition done : outcome := mkOutcome [] [] None.
Definition yield (d : diagnostic) : outcome := mkOutcome [] [d] None.
Definition construct (f : FieldInfo) : outcome := mkOutcome [f] [] None.
Definition throw (e : exn) : outcome := mkOutcome [] [] (Some e).

(** Sequencing of two statements: the second runs only if the first ended
    without an exception. *)
Definition andThen (a b : outcome) : outcome :=
  match raised a with
  | Some _ => a
  | None => mkOutcome (built a ++ built b) (yielded a ++ yielded b) (raised b)
  end.

Notation "a ;; b" := (andThen a b) (at level 62, right associativity).

(** [for x in xs: body(x)]. *)
Fixpoint for_each {A} (xs : list A) (body : A -> outcome) : outcome :=
  match xs with
  | [] => done
  | x :: rest => body x ;; for_each rest body
  end.

(** Evaluating an expression that may raise, then going on with its value. *)
Definition eval {A} (r : result A) (k : A -> outcome) : outcome :=
  match r with
  | Ok a => k a
  | Raise e => throw e
  end.

Notation "'let!' x := r 'in' k" := (eval r (fun x => k))
  (at level 63, x name, r at next level, right associativity).

(** ** [ast.walk] *)

Fixpoint node_size (n : node) : nat :=
  S (match n with
     | Name _ => 0
     | Attribute value _ => node_size value
     | Call func args keywords =>
         node_size func + list_sum (map node_size args)
         + list_sum (map node_size keywords)
     | Assign _ _ targets value =>
         list_sum (map node_size targets) + node_size value
     | Other _ children => list_sum (map node_size children)
     end).

Definition queue_size (todo : list node) : nat :=
  list_sum (map node_size todo).

(** The loop of [ast.walk]:
    [todo = deque([node]); while todo: node = todo.popleft();
     todo.extend(iter_child_nodes(node)); yield node]. *)
Equations? walk_queue (todo : list node) : list node
  by wf (queue_size todo) lt :=
  walk_queue [] := [];
  walk_queue (n :: rest) := n :: walk_queue (rest ++ iter_child_nodes n).
Proof.
  unfold queue_size. rewrite map_app, list_sum_app.
  destruct n; simpl; rewrite ?map_app, ?list_sum_app; simpl; lia.
Qed.

Definition walk (tree : node) : list node := walk_queue [tree].

(** ** The plugin *)

Record Plugin : Type := mkPlugin {
  tree : node;
  filename : string;
  rules : list Rule
}.

(** The list assigned to [self.rules] (lines 29-65). *)
Definition registry : list Rule := [STK001; STK002; STK003; STK004; STK005].

(** [Plugin.__init__] (lines 25-65). *)
Definition init (tree : node) (filename : string) : Plugin := {|
  tree := tree;
  filename := filename;
  rules := registry
|}.

(** The test of line 95:
    [rule["condition"](field_info) and not rule["assertion"](field_info)]. *)
Definition fires (rule : Rule) (field_info : FieldInfo) : result bool :=
  pand (condition rule field_info) (pnot (assertion rule field_info)).

(** The tuple built on lines 98-104. *)
Definition diagnostic_of (lineno col_offset : Z) (field_info : FieldInfo)
    (rule : Rule) : diagnostic :=
  mkDiagnostic lineno col_offset
    (PyStr.format "{}: " [error_code rule]
     ++ PyStr.format (message rule) [name field_info])
    PluginClass.

(** The [for rule in self.rules] loop (lines 94-104) for one [field_info],
    inside the assignment at [lineno], [col_offset]. *)
Definition check_rules (rules : list Rule) (lineno col_offset : Z)
    (field_info : FieldInfo) : outcome :=
  for_each rules (fun rule =>
    let! hit := fires rule field_info in
    if hit
    then yield (diagnostic_of lineno col_offset field_info rule)
    else done).

(** The body of [for target in node.targets] (lines 79-104). *)
Definition check_target (rules : list Rule) (lineno col_offset : Z)
    (arg0 : node) (target : node) : outcome :=
  match target with
  | Name field_name =>
      let column_type_node := arg0 in
      let! base_type := get_base_type_name column_type_node in
      let! full_type := get_full_name column_type_node in
      let field_info :=
        mkFieldInfo field_name column_type_node base_type full_type in
      construct field_info ;;
      check_rules rules lineno col_offset field_info
  | _ => done
  end.

(** The body of [for node in ast.walk(self.tree)] (lines 69-104). *)
Definition check_node (rules : list Rule) (n : node) : outcome :=
  match n with
  | Assign lineno col_offset targets (Call _ (arg0 :: _) _) =>
      for_each targets (check_target rules lineno col_offset arg0)
  | _ => done
  end.

(** [Plugin.run] (lines 67-104). *)
Definition run (self : Plugin) : outcome :=
  for_each (walk (tree self)) (check_node (rules self)).

(** ** Sample trees *)

Module Samples.

Definition Module_ (body : list node) : node := Other "Module" body.
Definition ClassDef (body : list node) : node := Other "ClassDef" body.
Definition Constant : node := Other "Constant" [].
Definition Tuple (elts : list node) : node := Other "Tuple" elts.
Definition Column (arg : node) : node := Call (Name "Column") [arg] [].

(** [created = Column(DateTime())] *)
Definition created : node :=
  Module_ [Assign 1 0 [Name "created"] (Column (Call (Name "DateTime") [] []))].

(** [[
class A:
    created = Column(DateTime)
updated = Column(sa.DateTime)
]] *)
Definition nested : node :=
  Module_ [ClassDef [Assign 2 4 [Name "created"] (Column (Name "DateTime"))];
           Assign 3 0 [Name "updated"]
             (Column (Attribute (Name "sa") "DateTime"))].

(** [active = Column(bool)] *)
Definition active : node :=
  Module_ [Assign 1 0 [Name "active"] (Column (Name "bool"))].

(** [a = b = Column(DateTime)] *)
Definition chained : node :=
  Module_ [Assign 1 0 [Name "a"; Name "b"] (Column (Name "DateTime"))].

(** [[
n = int("3")
created = Column(DateTime)
]] *)
Definition literal : node :=
  Module_ [Assign 1 0 [Name "n"] (Call (Name "int") [Constant] []);
           Assign 2 0 [Name "created"] (Column (Name "DateTime"))].

(** The statement [a = b = int("3")]. *)
Definition chained_literal : node :=
  Assign 1 0 [Name "a"; Name "b"] (Call (Name "int") [Constant] []).

(** The statement [a = b = Column(DateTime)]. *)
Definition chained_stmt : node :=
  Assign 1 0 [Name "a"; Name "b"] (Column (Name "DateTime")).

(** The statement [x, y = Column(DateTime)]. *)
Definition unpacking : node :=
  Assign 1 0 [Tuple [Name "x"; Name "y"]] (Column (Name "DateTime")).

End Samples.

(** ** Specification vocabulary *)

(** The identifiers bound by the simple-name targets, in target order. *)
Definition target_names (targets : list node) : list string :=
  flat_map (fun t => match t with Name id => [id] | _ => [] end) targets.

(** Whether [get_full_name] finds only [Name], [Attribute] and [Call] nodes
    on the path it follows ([value] of an attribute, [func] of a call). *)
Fixpoint resolvable (n : node) : bool :=
  match n with
  | Name _ => true
  | Attribute value _ => resolvable value
  | Call func _ _ => resolvable func
  | _ => false
  end.

(** The rule fired on [field_info], its predicates having returned. *)
Definition fired (field_info : FieldInfo) (rule : Rule) : bool :=
  match fires rule field_info with
  | Ok true => true
  | _ => false
  end.

(** A diagnostic whose text starts with ["<code>: "]. *)
Definition has_code (code : string) (d : diagnostic) : bool :=
  PyStr.startswith (text d) (code ++ ": ").

(** Document order: a node, then its children's subtrees left to right. *)
Fixpoint preorder (n : node) : list node :=
  n :: match n with
       | Name _ => []
       | Attribute value _ => preorder value
       | Call func args keywords =>
           preorder func ++ flat_map preorder args ++ flat_map preorder keywords
       | Assign _ _ targets value =>
           flat_map preorder targets ++ preorder value
       | Other _ children => flat_map preorder children
       end.

(** The nodes one level below those of [todo], left to right. *)
Definition next_level (todo : list node) : list node :=
  flat_map iter_child_nodes todo.

(** The nodes at depth [k] below [tree], left to right. *)
Definition level (k : nat) (tree : node) : list node :=
  Nat.iter k next_level [tree].

(** The last non-empty segment of a dotted name (empty if there is none). *)
Definition last_nonempty_segment (full_name : string) : string :=
  last (filter PyStr.truthy (PyStr.split "." full_name)) "".

(** What an assignment yields when nothing raises: for each simple-name
    target in order, one diagnostic per rule that fires, in rule order. *)
Definition expected (rs : list Rule) (n : node) : list diagnostic :=
  match n with
  | Assign l c targets (Call _ (arg0 :: _) _) =>
      match get_full_name arg0 with
      | Ok full =>
          flat_map
            (fun id =>
               let f := mkFieldInfo id arg0 (last (PyStr.split "." full) "")
                                    full in
               map (diagnostic_of l c f) (filter (fired f) rs))
            (target_names targets)
      | Raise _ => []
      end
  | _ => []
  end.

(** The source positions the parser assigns: lines count from 1, columns
    ([col_offset]) from 0. *)
Definition parser_positions (t : node) : Prop :=
  forall l c targets value,
    In (Assign l c targets value) (walk t) -> (1 <= l /\ 0 <= c)%Z.

(** The node at which [get_full_name] stops descending: it follows the
    [value] of attributes and the [func] of calls. *)
Fixpoint spine_end (n : node) : node :=
  match n with
  | Attribute value _ => spine_end value
  | Call func _ _ => spine_end func
  | _ => n
  end.

(** The character [sep] does not occur in [s]. *)
Fixpoint lacks (sep : ascii) (s : string) : bool :=
  match s with
  | EmptyString => true
  | String c rest => negb (Ascii.eqb c sep) && lacks sep rest
  end.

(** The names STK004 applies to. *)
Definition id_like (id : string) : bool :=
  String.eqb id "id" || PyStr.endswith id "_id" || PyStr.startswith id "id_".

(** The rules that fire on a declaration named [id] of base type [base] and
    qualified type [full], as a table. *)
Definition decision (id base full : string) : list Rule :=
  (if String.eqb base "DateTime"
      && negb (PyStr.endswith id "_at" || PyStr.endswith id "_dt")
   then [STK001] else [])
  ++ (if String.eqb base "Date" && negb (PyStr.endswith id "_date")
      then [STK002] else [])
  ++ (if String.eqb id "type" && negb (String.eqb full "sqlalchemy.Enum")
      then [STK003] else [])
  ++ (if id_like id && negb (String.eqb full "sqlalchemy.UUID")
      then [STK004] else []).

(** A node that lets the run go on: anything but an assignment of a call
    with a positional argument to at least one simple name whose type
    expression does not resolve, or resolves to the base type ["bool"]. *)
Definition safe_node (n : node) : bool :=
  match n with
  | Assign _ _ targets (Call _ (arg0 :: _) _) =>
      match target_names targets with
      | [] => true
      | _ :: _ =>
          match get_base_type_name arg0 with
          | Ok base => negb (String.eqb base "bool")
          | Raise _ => false
          end
      end
  | _ => true
  end.

(** ** The command-line driver (lines 129-137) *)

(** [str(n)] for an [int]: decimal digits, a leading [-] when negative. *)
Definition str_of_int (n : Z) : string :=
  NilEmpty.string_of_int (Z.to_int n).

(** The line printed for one yielded tuple (line 137). *)
Definition print_error (error : diagnostic) : string :=
  PyStr.format "{}:{}: {}"
    [str_of_int (line error); str_of_int (column error); text error].

(** The driver, from the parsed tree on: the lines it prints, in order, and
    the exception that ends it, if any.  Reading the file named by
    [sys.argv[1]] and parsing it are the interpreter's and the [ast]
    module's business. *)
Definition main (tree : node) (argv1 : string) : list string * option exn :=
  let checker := init tree argv1 in
  (map print_error (yielded (run checker)), raised (run checker)).

(** ** Identifiers as the parser produces them *)

(** A Python identifier is not empty and contains no dot. *)
Definition identifier (s : string) : bool :=
  PyStr.truthy s && lacks "." s.

(** The names the resolver reads in [n] -- the [id] of a name, the [attr] of
    an attribute, along the path it follows -- are identifiers, as they are
    in every tree that comes out of [ast.parse]. *)
Fixpoint parsed_names (n : node) : bool :=
  match n with
  | Name id => identifier id
  | Attribute value attr => parsed_names value && identifier attr
  | Call func _ _ => parsed_names func
  | _ => true
  end.

(** ** The plugin as an object with state *)











(** ** The interpreter's recursion limit *)

(** The [Attribute] and [Call] nodes the resolver passes through before it
    reaches the end of its path. *)
Fixpoint spine_depth (n : node) : nat :=
  match n with
  | Attribute value _ => S (spine_depth value)
  | Call func _ _ => S (spine_depth func)
  | _ => 0
  end.

(** [Plugin.get_full_name] (lines 106-118) when the interpreter allows
    [frames] more nested Python frames: each call takes one, and a call for
    which none is left raises [RecursionError]. *)
Fixpoint get_full_name_within (frames : nat) (n : node) : result string :=
  match frames with
  | O => Raise RecursionError
  | S frames' =>
      match n with
      | Name id => Ok id
      | Attribute value attr =>
          value <- get_full_name_within frames' value ;;
          Ok (if PyStr.truthy value
              then PyStr.format "{}.{}" [value; attr]
              else attr)
      | Call func _ _ => get_full_name_within frames' func
      | _ => Raise (ValueError (type_name n))
      end
  end.

(** [Plugin.get_base_type_name] (lines 120-126) under the same limit: its
    own frame, then the resolver's. *)
Definition get_base_type_name_within (frames : nat) (n : node)
    : result string :=
  match frames with
  | O => Raise RecursionError
  | S frames' =>
      full_name <- get_full_name_within frames' n ;;
      Ok (last (PyStr.split "." full_name) "")
  end.

(** Lines 79-104 with [frames] frames left below [run].  The rule
    predicates are called from the same depth, take one frame each and call
    built-in methods only; they are reached after [get_base_type_name] has
    returned, which took two frames, so theirs is always there. *)
Definition check_target_within (frames : nat) (rules : list Rule)
    (lineno col_offset : Z) (arg0 : node) (target : node) : outcome :=
  match target with
  | Name field_name =>
      let column_type_node := arg0 in
      let! base_type := get_base_type_name_within frames column_type_node in
      let! full_type := get_full_name_within frames column_type_node in
      let field_info :=
        mkFieldInfo field_name column_type_node base_type full_type in
      construct field_info ;;
      check_rules rules lineno col_offset field_info
  | _ => done
  end.

Definition check_node_within (frames : nat) (rules : list Rule) (n : node)
    : outcome :=
  match n with
  | Assign lineno col_offset targets (Call _ (arg0 :: _) _) =>
      for_each targets (check_target_within frames rules lineno col_offset arg0)
  | _ => done
  end.

(** [Plugin.run] with [frames] frames left below it.  [walk_frames] is the
    number of nested frames the generators of [ast.walk] take each time the
    loop resumes them, a constant of the interpreter's [ast] module: with
    fewer left, the first step of the loop raises. *)
Definition run_within (walk_frames frames : nat) (self : Plugin) : outcome :=
  if (frames <? walk_frames)%nat then throw RecursionError
  else for_each (walk (tree self)) (check_node_within frames (rules self)).

(** The type expression of a node that is examined can be resolved in
    [frames] frames: [get_base_type_name], then one call of the resolver
    for each node on its path. *)
Definition fits (frames : nat) (n : node) : bool :=
  match n with
  | Assign _ _ targets (Call _ (arg0 :: _) _) =>
      match target_names targets with
      | [] => true
      | _ :: _ => (spine_depth arg0 + 2 <=? frames)%nat
      end
  | _ => true
  end.

(** ** Generators: basic facts *)

Section Generators.

Context {A : Type}.
Implicit Types (xs : list A) (body : A -> outcome).

Lemma andThen_done_l (o : outcome) : done ;; o = o.
Proof. destruct o; reflexivity. Qed.

Lemma for_each_app xs ys body :
  for_each (xs ++ ys) body = for_each xs body ;; for_each ys body.
Proof.
  induction xs as [|x xs IH]; simpl.
  - now rewrite andThen_done_l.
  - rewrite IH. unfold andThen.
    destruct (raised (body x)) eqn:E; simpl; [now rewrite E|].
    destruct (raised (for_each xs body)) eqn:E'; simpl;
      rewrite ?E; simpl; rewrite ?E'; [reflexivity|].
    now rewrite !app_assoc.
Qed.

(** A loop that ends without an exception ran every iteration to its end,
    and yielded what the iterations yielded, in order. *)
Lemma for_each_completes xs body :
  raised (for_each xs body) = None ->
  (forall x, In x xs -> raised (body x) = None)
  /\ yielded (for_each xs body) = flat_map (fun x => yielded (body x)) xs
  /\ built (for_each xs body) = flat_map (fun x => built (body x)) xs.
Proof.
  induction xs as [|x xs IH]; simpl.
  - intros _. repeat split; auto. intros ? [].
  - unfold andThen. destruct (raised (body x)) eqn:E; simpl.
    + congruence.
    + intros H. destruct (IH H) as (Hr & Hy & Hb).
      repeat split.
      * intros y [<-|Hy']; auto.
      * now rewrite Hy.
      * now rewrite Hb.
Qed.

Lemma for_each_all_complete xs body :
  (forall x, In x xs -> raised (body x) = None) ->
  raised (for_each xs body) = None.
Proof.
  induction xs as [|x xs IH]; simpl; intros H; [reflexivity|].
  unfold andThen. rewrite (H x (or_introl eq_refl)). simpl.
  apply IH. intros y Hy. apply H. now right.
Qed.

(** Whatever ends the loop, what it yielded is an initial segment of what
    the iterations yield one after the other. *)
Lemma for_each_yielded_prefix xs body :
  exists rest,
    flat_map (fun x => yielded (body x)) xs
    = yielded (for_each xs body) ++ rest.
Proof.
  induction xs as [|x xs [rest IH]]; simpl.
  - exists []. reflexivity.
  - unfold andThen. destruct (raised (body x)); simpl.
    + eexists. reflexivity.
    + exists rest. now rewrite IH, app_assoc.
Qed.

Lemma for_each_yielded_In xs body d :
  In d (yielded (for_each xs body)) ->
  exists x, In x xs /\ In d (yielded (body x)).
Proof.
  intros H. destruct (for_each_yielded_prefix xs body) as [rest E].
  assert (In d (flat_map (fun x => yielded (body x)) xs)) as H'
    by (rewrite E; apply in_or_app; now left).
  apply in_flat_map in H'. exact H'.
Qed.

(** The first iteration that raises ends the loop. *)
Lemma for_each_raises before x after body e :
  raised (for_each before body) = None ->
  raised (body x) = Some e ->
  for_each (before ++ x :: after) body
  = mkOutcome (built (for_each before body) ++ built (body x))
              (yielded (for_each before body) ++ yielded (body x))
              (Some e).
Proof.
  intros Hb Hx. rewrite for_each_app. simpl.
  unfold andThen at 1. rewrite Hb.
  unfold andThen. rewrite Hx. simpl. now rewrite Hx.
Qed.

End Generators.

(** ** [ast.walk]: the queue loop visits the tree level by level *)

Lemma queue_size_app (q r : list node) :
  queue_size (q ++ r) = queue_size q + queue_size r.
Proof.
  unfold queue_size. now rewrite map_app, list_sum_app.
Qed.

Lemma node_size_children (n : node) :
  node_size n = S (queue_size (iter_child_nodes n)).
Proof.
  destruct n; simpl; unfold queue_size; simpl;
    rewrite ?map_app, ?list_sum_app; simpl; lia.
Qed.

Lemma walk_queue_app (q cs : list node) :
  walk_queue (q ++ cs) = q ++ walk_queue (cs ++ next_level q).
Proof.
  revert cs. induction q as [|n q IH]; intros cs; simpl.
  - now rewrite app_nil_r.
  - simp walk_queue. f_equal.
    rewrite <- app_assoc, IH. unfold next_level. simpl.
    now rewrite app_assoc.
Qed.

Lemma walk_queue_level (q : list node) :
  walk_queue q = q ++ walk_queue (next_level q).
Proof.
  rewrite <- (app_nil_r q) at 1. now rewrite walk_queue_app.
Qed.

Lemma queue_size_next_level (q : list node) :
  queue_size q = List.length q + queue_size (next_level q).
Proof.
  induction q as [|n q IH]; [reflexivity|].
  unfold next_level in *. simpl. rewrite queue_size_app.
  change (queue_size (n :: q)) with (node_size n + queue_size q).
  rewrite node_size_children. lia.
Qed.

Lemma iter_next_level_nil (k : nat) : Nat.iter k next_level [] = [].
Proof. induction k as [|k IH]; simpl; [|rewrite IH]; reflexivity. Qed.

Lemma iter_next_level_shift (k : nat) (q : list node) :
  Nat.iter (S k) next_level q = Nat.iter k next_level (next_level q).
Proof. apply Nat.iter_succ_r. Qed.

Lemma walk_queue_levels (n : nat) (q : list node) :
  queue_size q <= n ->
  walk_queue q = List.concat (map (fun k => Nat.iter k next_level q) (seq 0 n)).
Proof.
  revert q. induction n as [|n IH]; intros q Hq.
  - destruct q as [|x q]; [reflexivity|].
    exfalso. unfold queue_size in Hq. simpl in Hq.
    destruct x; simpl in Hq; lia.
  - rewrite walk_queue_level. cbn [seq map List.concat Nat.iter]. f_equal.
    rewrite <- seq_shift, map_map.
    rewrite (IH (next_level q)).
    + f_equal. apply map_ext. intros k. symmetry. apply iter_next_level_shift.
    + pose proof (queue_size_next_level q) as E.
      destruct q as [|x q]; [cbn; lia|]. cbn [List.length] in E. lia.
Qed.

(** ** The resolvers *)

Lemma append_empty_r (s : string) : (s ++ "")%string = s.
Proof. induction s as [|c s IH]; simpl; [|rewrite IH]; reflexivity. Qed.

Lemma format_dotted (value attr : string) :
  PyStr.format "{}.{}" [value; attr] = (value ++ "." ++ attr)%string.
Proof. simpl. now rewrite append_empty_r. Qed.

Lemma split_not_nil (sep : ascii) (s : string) : PyStr.split sep s <> [].
Proof.
  destruct s as [|c s]; simpl; [discriminate|].
  destruct (Ascii.eqb c sep); [discriminate|].
  destruct (PyStr.split sep s); discriminate.
Qed.

Lemma last_filter_truthy (l : list string) :
  PyStr.truthy (last l "") = true ->
  last (filter PyStr.truthy l) "" = last l "".
Proof.
  induction l as [|s l IH]; [reflexivity|].
  destruct l as [|t l].
  - simpl. intros ->. reflexivity.
  - intros H. change (last (s :: t :: l) "") with (last (t :: l) "") in *.
    specialize (IH H). remember (t :: l) as tl eqn:Etl.
    cbn [filter]. destruct (PyStr.truthy s); [|exact IH].
    destruct (filter PyStr.truthy tl) as [|u us] eqn:E.
    + simpl in IH. rewrite <- IH in H. discriminate.
    + rewrite <- IH. reflexivity.
Qed.

Lemma resolvable_full_name (n : node) :
  resolvable n = true -> exists full, get_full_name n = Ok full.
Proof.
  induction n; simpl; try discriminate; intros H.
  - eexists; reflexivity.
  - destruct (IHn H) as [v ->]. simpl. eexists; reflexivity.
  - auto.
Qed.

Lemma unresolvable_full_name (n : node) :
  resolvable n = false -> exists k, get_full_name n = Raise (ValueError k).
Proof.
  induction n; simpl; try discriminate; intros H.
  - destruct (IHn H) as [k ->]. simpl. eexists; reflexivity.
  - auto.
  - eexists; reflexivity.
  - eexists; reflexivity.
Qed.

Lemma full_name_resolvable (n : node) (full : string) :
  get_full_name n = Ok full -> resolvable n = true.
Proof.
  intros H. destruct (resolvable n) eqn:E; [reflexivity|].
  destruct (unresolvable_full_name n E) as [k Hk]. congruence.
Qed.

Lemma base_type_of_full_name (n : node) (full : string) :
  get_full_name n = Ok full ->
  get_base_type_name n = Ok (last (PyStr.split "." full) "").
Proof. unfold get_base_type_name. now intros ->. Qed.

Lemma lacks_split (sep : ascii) (s : string) :
  lacks sep s = true -> PyStr.split sep s = [s].
Proof.
  induction s as [|c s IH]; [reflexivity|].
  cbn. destruct (Ascii.eqb c sep); [discriminate|].
  cbn. intros H. now rewrite (IH H).
Qed.

Lemma last_app_nonempty {A} (pre l : list A) (d : A) :
  l <> [] -> last (pre ++ l) d = last l d.
Proof.
  intros Hl. induction pre as [|x pre IH]; [reflexivity|].
  cbn [app]. destruct (pre ++ l) eqn:E.
  - destruct pre, l; try discriminate. now destruct Hl.
  - exact IH.
Qed.

Lemma split_after_separator (sep : ascii) (q a : string) :
  exists pre,
    pre <> []
    /\ PyStr.split sep (q ++ String sep a) = pre ++ PyStr.split sep a.
Proof.
  induction q as [|c q (pre & Hpre & IH)].
  - exists [""]. split; [discriminate|]. cbn. now rewrite Ascii.eqb_refl.
  - cbn [append PyStr.split]. destruct (Ascii.eqb c sep).
    + exists ("" :: pre). split; [discriminate|]. now rewrite IH.
    + rewrite IH. destruct pre as [|p ps]; [now destruct Hpre|].
      exists (String c p :: ps). split; [discriminate|reflexivity].
Qed.

Lemma parsed_base_name (n : node) (q : string) :
  parsed_names n = true ->
  get_full_name n = Ok q ->
  PyStr.truthy (last (PyStr.split "." q) "") = true.
Proof.
  revert q. induction n as [id|value IH attr|func IH args kws| |];
    intros q Hp Hq; cbn [parsed_names get_full_name] in *; try discriminate.
  - injection Hq as <-. unfold identifier in Hp.
    apply andb_true_iff in Hp. destruct Hp as [Ht Hl].
    now rewrite (lacks_split _ _ Hl).
  - apply andb_true_iff in Hp. destruct Hp as [_ Hid].
    unfold identifier in Hid. apply andb_true_iff in Hid.
    destruct Hid as [Ht Hl].
    destruct (get_full_name value) as [qv|e]; [|discriminate].
    cbn [bind] in Hq. injection Hq as <-.
    destruct qv as [|c qv]; cbn [PyStr.truthy].
    + now rewrite (lacks_split _ _ Hl).
    + rewrite append_empty_r.
      destruct (split_after_separator "." (String c qv) attr)
        as (pre & _ & ->).
      rewrite last_app_nonempty by apply split_not_nil.
      now rewrite (lacks_split _ _ Hl).
  - now apply IH.
Qed.

(** ** The rule table: when each rule fires *)

Lemma fires_STK001 (f : FieldInfo) :
  fires STK001 f
  = Ok (String.eqb (base_type f) "DateTime"
        && negb (PyStr.endswith (name f) "_at"
                 || PyStr.endswith (name f) "_dt")).
Proof.
  unfold fires, STK001, pand, pnot, por, peq, call_method; simpl.
  destruct (String.eqb (base_type f) "DateTime"); [|reflexivity].
  destruct (PyStr.endswith (name f) "_at"); reflexivity.
Qed.

Lemma fires_STK002 (f : FieldInfo) :
  fires STK002 f
  = Ok (String.eqb (base_type f) "Date"
        && negb (PyStr.endswith (name f) "_date")).
Proof.
  unfold fires, STK002, pand, pnot, por, peq, call_method; simpl.
  destruct (String.eqb (base_type f) "Date"); reflexivity.
Qed.

Lemma fires_STK003 (f : FieldInfo) :
  fires STK003 f
  = Ok (String.eqb (name f) "type"
        && negb (String.eqb (full_type f) "sqlalchemy.Enum")).
Proof.
  unfold fires, STK003, pand, pnot, por, peq, call_method; simpl.
  destruct (String.eqb (name f) "type"); reflexivity.
Qed.

Lemma fires_STK004 (f : FieldInfo) :
  fires STK004 f
  = Ok ((String.eqb (name f) "id"
         || PyStr.endswith (name f) "_id"
         || PyStr.startswith (name f) "id_")
        && negb (String.eqb (full_type f) "sqlalchemy.UUID")).
Proof.
  unfold fires, STK004, pand, pnot, por, peq, call_method; simpl.
  destruct (String.eqb (name f) "id"); [reflexivity|].
  destruct (PyStr.endswith (name f) "_id"); [reflexivity|].
  destruct (PyStr.startswith (name f) "id_"); reflexivity.
Qed.

Lemma fires_STK005 (f : FieldInfo) :
  fires STK005 f
  = if String.eqb (base_type f) "bool"
    then Raise (AttributeError "str" "startwith")
    else Ok false.
Proof.
  unfold fires, STK005, pand, pnot, por, peq, call_method; simpl.
  destruct (String.eqb (base_type f) "bool"); reflexivity.
Qed.

(** A pass over rules whose predicates all return yields one diagnostic per
    rule that fires, in the order of the rules. *)
Lemma check_rules_completes (rs : list Rule) (l c : Z) (f : FieldInfo) :
  (forall r, In r rs -> exists b, fires r f = Ok b) ->
  check_rules rs l c f
  = mkOutcome [] (map (diagnostic_of l c f) (filter (fired f) rs)) None.
Proof.
  unfold check_rules. induction rs as [|r rs IH]; intros H; [reflexivity|].
  cbn [for_each]. rewrite IH by (intros r' Hr'; apply H; now right).
  destruct (H r (or_introl eq_refl)) as [b Hb].
  unfold fired at 2. cbn [filter]. unfold fired at 1. rewrite Hb. simpl.
  destruct b; reflexivity.
Qed.

Lemma registry_total (f : FieldInfo) :
  String.eqb (base_type f) "bool" = false ->
  forall r, In r registry -> exists b, fires r f = Ok b.
Proof.
  intros Hb r [<-|[<-|[<-|[<-|[<-|[]]]]]];
    rewrite ?fires_STK001, ?fires_STK002, ?fires_STK003, ?fires_STK004,
            ?fires_STK005, ?Hb;
    eexists; reflexivity.
Qed.

Lemma check_rules_position (rs : list Rule) (l c : Z) (f : FieldInfo) d :
  In d (yielded (check_rules rs l c f)) -> line d = l /\ column d = c.
Proof.
  unfold check_rules. intros H.
  apply for_each_yielded_In in H. destruct H as (r & _ & H).
  destruct (fires r f) as [[|]|]; simpl in H; try contradiction.
  destruct H as [<-|[]]. split; reflexivity.
Qed.

Lemma has_code_registry (code : string) (l c : Z) (f : FieldInfo) (r : Rule) :
  In code (map error_code registry) ->
  In r registry ->
  has_code code (diagnostic_of l c f r) = String.eqb code (error_code r).
Proof.
  intros [<-|[<-|[<-|[<-|[<-|[]]]]]] [<-|[<-|[<-|[<-|[<-|[]]]]]];
    reflexivity.
Qed.

(** ** The program on sample inputs *)

Example run_created :
  map text (yielded (run (init Samples.created "models.py")))
  = ["STK001: Поле 'created' имеет тип DateTime, должно оканчиваться на '_at' или '_dt'"].
Proof. reflexivity. Qed.

Example run_created_at :
  run (init (Samples.Module_
               [Assign 1 0 [Name "created_at"]
                  (Samples.Column (Call (Name "DateTime") [] []))])
            "models.py")
  = mkOutcome [mkFieldInfo "created_at" (Call (Name "DateTime") [] [])
                 "DateTime" "DateTime"]
              [] None.
Proof. reflexivity. Qed.

Example run_user_id :
  map text
    (yielded (run (init (Samples.Module_
                           [Assign 1 0 [Name "user_id"]
                              (Samples.Column (Call (Name "Integer") [] []))])
                        "models.py")))
  = ["STK004: Поле 'user_id' должно использовать UUID вместо Integer"].
Proof. reflexivity. Qed.

Example run_active :
  run (init Samples.active "models.py")
  = mkOutcome [mkFieldInfo "active" (Name "bool") "bool" "bool"] []
              (Some (AttributeError "str" "startwith")).
Proof. reflexivity. Qed.

Example run_chained :
  map (fun d => (line d, column d, has_code "STK001" d))
      (yielded (run (init Samples.chained "models.py")))
  = [(1, 0, true); (1, 0, true)]%Z.
Proof. reflexivity. Qed.

Example walk_nested :
  map type_name (walk Samples.nested)
  = ["Module"; "ClassDef"; "Assign"; "Assign"; "Name"; "Call"; "Name";
     "Call"; "Name"; "Attribute"; "Name"; "Name"; "Name"].
Proof. reflexivity. Qed.

(** * The claims *)

(** C1 (the code departs from the claim).  A field whose base type is
    ["bool"] never gets an STK005 diagnostic: STK005's condition holds, its
    assertion looks up the misspelt method [startwith] on the field's name,
    and the [AttributeError] this raises ends the rule loop, whatever the
    name. *)
Theorem boolean_field_raises (l c : Z) (f : FieldInfo) :
  base_type f = "bool" ->
  raised (check_rules registry l c f)
  = Some (AttributeError "str" "startwith")
  /\ filter (has_code "STK005") (yielded (check_rules registry l c f)) = [].
Proof.
  intros Hb. unfold check_rules, registry. cbn [for_each].
  rewrite fires_STK001, fires_STK002, fires_STK003, fires_STK004,
          fires_STK005, Hb.
  cbn [String.eqb Ascii.eqb Bool.eqb andb eval].
  destruct (_ && _); destruct (_ && _); split; reflexivity.
Qed.

Lemma boolean_field_raises_witness :
  raised (check_rules registry 1 0
            (mkFieldInfo "active" (Name "bool") "bool" "bool"))
  = Some (AttributeError "str" "startwith")
  /\ filter (has_code "STK005")
       (yielded (check_rules registry 1 0
                   (mkFieldInfo "active" (Name "bool") "bool" "bool"))) = [].
Proof.
  apply (boolean_field_raises 1 0
           (mkFieldInfo "active" (Name "bool") "bool" "bool")).
  reflexivity.
Defined.

(** C7.  For a declaration (a simple-name target [id] of an assignment at
    [l], [c]) whose type expression resolves to the base type ["DateTime"]:
    the rule loop ends without an exception, and among what it yields there
    is exactly one STK001 diagnostic, positioned at [l], [c], when [id] ends
    in neither ["_at"] nor ["_dt"], and none when it ends in one of them. *)
Theorem datetime_field_STK001 (l c : Z) (arg0 : node) (id : string) :
  get_base_type_name arg0 = Ok "DateTime" ->
  let o := check_target registry l c arg0 (Name id) in
  raised o = None
  /\ filter (has_code "STK001") (yielded o)
     = if PyStr.endswith id "_at" || PyStr.endswith id "_dt"
       then []
       else [mkDiagnostic l c
               ("STK001: " ++ PyStr.format (message STK001) [id])
               PluginClass].
Proof.
  intros Hbase o. subst o. unfold check_target. rewrite Hbase.
  unfold get_base_type_name in Hbase.
  destruct (get_full_name arg0) as [full|e]; [|discriminate].
  cbn [eval bind].
  set (f := mkFieldInfo id arg0 "DateTime" full).
  rewrite (check_rules_completes registry l c f)
    by (apply registry_total; reflexivity).
  cbn [andThen construct raised built yielded app]. split; [reflexivity|].
  unfold registry. cbn [filter]. unfold fired.
  rewrite fires_STK001, fires_STK002, fires_STK003, fires_STK004,
          fires_STK005.
  cbn [base_type name f String.eqb Ascii.eqb Bool.eqb andb].
  destruct (PyStr.endswith id "_at" || PyStr.endswith id "_dt");
    destruct (String.eqb id "type" && _);
    destruct ((String.eqb id "id" || _ || _) && _);
    reflexivity.
Qed.

Lemma datetime_field_STK001_witness :
  raised (check_target registry 1 0
            (Call (Attribute (Name "sa") "DateTime") [] []) (Name "created"))
  = None
  /\ filter (has_code "STK001")
       (yielded (check_target registry 1 0
                   (Call (Attribute (Name "sa") "DateTime") [] [])
                   (Name "created")))
     = [mkDiagnostic 1 0
          ("STK001: " ++ PyStr.format (message STK001) ["created"])
          PluginClass].
Proof.
  apply (datetime_field_STK001 1 0
           (Call (Attribute (Name "sa") "DateTime") [] []) "created").
  reflexivity.
Defined.

(** *** The run and the state of the plugin object *)








(** C9.  An assignment whose right-hand side is a call without positional
    arguments, whatever its keyword arguments and targets, builds no field
    descriptor, yields no diagnostic and raises nothing. *)
Theorem no_positional_argument (rs : list Rule) (l c : Z)
    (targets : list node) (func : node) (keywords : list node) :
  check_node rs (Assign l c targets (Call func [] keywords)) = done.
Proof. reflexivity. Qed.

(** ** One assignment *)

Lemma check_targets_no_names (rs : list Rule) (l c : Z) (arg0 : node)
    (targets : list node) :
  target_names targets = [] ->
  for_each targets (check_target rs l c arg0) = done.
Proof.
  induction targets as [|t ts IH]; [reflexivity|].
  destruct t; simpl; try discriminate; intros H;
    rewrite (IH H); reflexivity.
Qed.

Lemma check_targets_unresolvable (rs : list Rule) (l c : Z) (arg0 : node)
    (targets : list node) (e : exn) :
  get_full_name arg0 = Raise e ->
  target_names targets <> [] ->
  for_each targets (check_target rs l c arg0) = throw e.
Proof.
  intros He. induction targets as [|t ts IH]; [now intros []|].
  destruct t; cbn [for_each check_target target_names flat_map app];
    try (intros H; rewrite (IH H); reflexivity).
  intros _. unfold get_base_type_name. rewrite He. reflexivity.
Qed.

Lemma check_rules_returns (rs : list Rule) (l c : Z) (f : FieldInfo) :
  raised (check_rules rs l c f) = None ->
  check_rules rs l c f
  = mkOutcome [] (map (diagnostic_of l c f) (filter (fired f) rs)) None.
Proof.
  intros H. apply check_rules_completes. intros r Hr.
  unfold check_rules in H. apply for_each_completes in H.
  destruct H as (H & _). specialize (H r Hr).
  destruct (fires r f) as [b|e]; [now exists b|discriminate].
Qed.

Lemma check_targets_completes (rs : list Rule) (l c : Z) (arg0 : node)
    (full : string) (targets : list node) :
  get_full_name arg0 = Ok full ->
  raised (for_each targets (check_target rs l c arg0)) = None ->
  yielded (for_each targets (check_target rs l c arg0))
  = flat_map
      (fun id =>
         let f := mkFieldInfo id arg0 (last (PyStr.split "." full) "") full in
         map (diagnostic_of l c f) (filter (fired f) rs))
      (target_names targets).
Proof.
  intros Hfull. induction targets as [|t ts IH]; [reflexivity|].
  cbn [for_each]. unfold andThen at 1 2.
  destruct (raised (check_target rs l c arg0 t)) eqn:Et; [congruence|].
  cbn [raised yielded]. intros H. rewrite (IH H). clear IH H.
  destruct t; try reflexivity.
  cbn [target_names flat_map] in *. f_equal.
  unfold check_target in *. unfold get_base_type_name in *.
  rewrite Hfull in *. cbn [bind eval] in *.
  unfold andThen in Et. cbn [construct raised] in Et.
  rewrite (check_rules_returns _ _ _ _ Et). reflexivity.
Qed.

Lemma check_node_completes (rs : list Rule) (n : node) :
  raised (check_node rs n) = None ->
  yielded (check_node rs n) = expected rs n.
Proof.
  destruct n as [| | |l c targets value|]; try reflexivity.
  destruct value as [| |func [|arg0 args] kws| |]; try reflexivity.
  cbn [check_node expected]. intros H.
  destruct (get_full_name arg0) as [full|e] eqn:E.
  - now apply check_targets_completes.
  - destruct (target_names targets) eqn:Et.
    + now rewrite check_targets_no_names.
    + rewrite (check_targets_unresolvable rs l c arg0 targets e E) in H
        by (rewrite Et; discriminate).
      discriminate.
Qed.

(** C2 (as the code has it).  An assignment with a simple-name target whose
    type expression is not resolvable (a node other than [Name], [Attribute]
    or [Call] on the path the resolver follows) makes [get_full_name] raise
    [ValueError]; nothing catches it, so it ends the run there: what the
    earlier nodes produced stays, the assignment itself yields nothing, and
    the nodes after it are not visited. *)
Theorem unresolvable_type_ends_run (t : node) (file : string)
    (before after : list node) (l c : Z) (targets : list node)
    (func arg0 : node) (args kws : list node) :
  walk t
  = before ++ Assign l c targets (Call func (arg0 :: args) kws) :: after ->
  raised (for_each before (check_node registry)) = None ->
  target_names targets <> [] ->
  resolvable arg0 = false ->
  exists k,
    get_full_name arg0 = Raise (ValueError k)
    /\ run (init t file)
       = mkOutcome (built (for_each before (check_node registry)))
                   (yielded (for_each before (check_node registry)))
                   (Some (ValueError k)).
Proof.
  intros Hwalk Hbefore Hnames Hres.
  destruct (unresolvable_full_name arg0 Hres) as [k Hk].
  exists k. split; [exact Hk|].
  unfold run. cbn [tree rules init]. rewrite Hwalk.
  rewrite (for_each_raises before _ after _ (ValueError k) Hbefore).
  - cbn [check_node].
    rewrite (check_targets_unresolvable _ _ _ _ _ _ Hk Hnames).
    cbn [throw built yielded]. now rewrite !app_nil_r.
  - cbn [check_node].
    now rewrite (check_targets_unresolvable _ _ _ _ _ _ Hk Hnames).
Qed.

Lemma unresolvable_type_ends_run_witness :
  exists k,
    get_full_name Samples.Constant = Raise (ValueError k)
    /\ run (init Samples.literal "models.py")
       = mkOutcome
           (built (for_each [Samples.literal] (check_node registry)))
           (yielded (for_each [Samples.literal] (check_node registry)))
           (Some (ValueError k)).
Proof.
  eapply (unresolvable_type_ends_run Samples.literal "models.py"
            [Samples.literal] _ 1 0 [Name "n"] (Name "int")
            Samples.Constant []).
  - vm_compute. reflexivity.
  - reflexivity.
  - discriminate.
  - reflexivity.
Defined.

(** C2, refuted as stated: in [n = int("3")] followed by
    [created = Column(DateTime)] the literal argument makes the resolver
    raise; the exception leaves [run], and the second declaration, which on
    its own yields a diagnostic, is never processed. *)
Lemma unresolvable_type_not_recovered :
  raised (run (init Samples.literal "models.py"))
  = Some (ValueError "Constant")
  /\ yielded (run (init Samples.literal "models.py")) = []
  /\ yielded (check_node registry
               (Assign 2 0 [Name "created"] (Samples.Column (Name "DateTime"))))
     <> [].
Proof. vm_compute. repeat split; discriminate. Qed.

(** ** The whole run *)

Lemma walk_levels (t : node) :
  walk t = List.concat (map (fun k => level k t) (seq 0 (node_size t))).
Proof.
  unfold walk, level. apply walk_queue_levels.
  unfold queue_size. simpl. lia.
Qed.

Lemma run_completes (t : node) (file : string) :
  raised (run (init t file)) = None ->
  yielded (run (init t file)) = flat_map (expected registry) (walk t).
Proof.
  unfold run, init; simpl. intros H.
  destruct (for_each_completes _ _ H) as (Hr & -> & _).
  rewrite !flat_map_concat_map. f_equal.
  apply map_ext_in. intros n Hn.
  apply check_node_completes, Hr, Hn.
Qed.

(** C3 (as the code has it).  [ast.walk] visits the tree breadth-first: the
    root, then the nodes one level down from left to right, then those two
    levels down, and so on.  The diagnostics follow that order: what a run
    yields is an initial segment of what the visited nodes yield one after
    the other, and when no exception ends the run it is, node by node in
    visiting order, target by target in target order, the rules that fire
    in registration order. *)
Theorem diagnostics_in_walk_order (t : node) (file : string) :
  walk t = List.concat (map (fun k => level k t) (seq 0 (node_size t)))
  /\ (exists rest,
        flat_map (fun n => yielded (check_node registry n)) (walk t)
        = yielded (run (init t file)) ++ rest)
  /\ (raised (run (init t file)) = None ->
      yielded (run (init t file)) = flat_map (expected registry) (walk t)).
Proof.
  split; [apply walk_levels|]. split; [|apply run_completes].
  unfold run, init; simpl. apply for_each_yielded_prefix.
Qed.

Lemma diagnostics_in_walk_order_witness :
  yielded (run (init Samples.nested "models.py"))
  = flat_map (expected registry) (walk Samples.nested).
Proof.
  apply (diagnostics_in_walk_order Samples.nested "models.py").
  reflexivity.
Defined.

(** C3, refuted as stated: for a class body followed by a module-level
    assignment, document order puts the declaration of line 2 first; the run
    completes and reports line 3 before line 2. *)
Lemma document_order_refuted :
  raised (run (init Samples.nested "models.py")) = None
  /\ map line (yielded (run (init Samples.nested "models.py"))) = [3; 2]%Z
  /\ map line (flat_map (fun n => yielded (check_node registry n))
                        (preorder Samples.nested)) = [2; 3]%Z
  /\ yielded (run (init Samples.nested "models.py"))
     <> flat_map (fun n => yielded (check_node registry n))
                 (preorder Samples.nested).
Proof. vm_compute. repeat split. discriminate. Qed.

(** ** Positions *)

Lemma check_node_position (rs : list Rule) (n : node) (d : diagnostic) :
  In d (yielded (check_node rs n)) ->
  exists l c targets value,
    n = Assign l c targets value /\ line d = l /\ column d = c.
Proof.
  destruct n as [| | |l c targets value|]; try (simpl; contradiction).
  intros H. exists l, c, targets, value. split; [reflexivity|].
  destruct value as [| |func [|arg0 args] kws| |]; try (simpl in H; contradiction).
  cbn [check_node] in H. apply for_each_yielded_In in H.
  destruct H as (t & _ & H).
  destruct t; try (simpl in H; contradiction).
  unfold check_target in H.
  destruct (get_base_type_name arg0); [|simpl in H; contradiction].
  destruct (get_full_name arg0); [|simpl in H; contradiction].
  cbn [eval] in H. unfold andThen in H. cbn [construct raised yielded app] in H.
  eapply check_rules_position. exact H.
Qed.

Lemma check_node_origin (rs : list Rule) (n : node) (d : diagnostic) :
  In d (yielded (check_node rs n)) ->
  exists l c targets func arg0 args kws id full r,
    n = Assign l c targets (Call func (arg0 :: args) kws)
    /\ In (Name id) targets
    /\ get_full_name arg0 = Ok full
    /\ In r rs
    /\ fires r (mkFieldInfo id arg0 (last (PyStr.split "." full) "") full)
       = Ok true
    /\ d = diagnostic_of l c
             (mkFieldInfo id arg0 (last (PyStr.split "." full) "") full) r.
Proof.
  destruct n as [| | |l c targets value|]; try (simpl; contradiction).
  destruct value as [| |func [|arg0 args] kws| |]; try (simpl; contradiction).
  cbn [check_node]. intros H. apply for_each_yielded_In in H.
  destruct H as (tg & Htg & H).
  destruct tg as [id| | | |]; try (simpl in H; contradiction).
  unfold check_target, get_base_type_name in H.
  destruct (get_full_name arg0) as [full|e] eqn:Hfull;
    [|simpl in H; contradiction].
  cbn [bind eval] in H. unfold andThen in H.
  cbn [construct raised yielded app] in H.
  unfold check_rules in H. apply for_each_yielded_In in H.
  destruct H as (r & Hr & H).
  destruct (fires r _) as [[|]|] eqn:Hf; cbn in H; try contradiction.
  destruct H as [<-|[]].
  exists l, c, targets, func, arg0, args, kws, id, full, r.
  repeat split; assumption.
Qed.

(** C4 (as the code has it).  Every diagnostic was built for a rule that
    fired on the descriptor of a simple-name target of an assignment of the
    tree, and it carries the [lineno] and the [col_offset] of that very
    assignment, unchanged; on a tree with the parser's positions that is a
    1-based line and a 0-based column. *)
Theorem diagnostic_position (t : node) (file : string) (d : diagnostic) :
  In d (yielded (run (init t file))) ->
  (exists l c targets func arg0 args kws id full r,
     In (Assign l c targets (Call func (arg0 :: args) kws)) (walk t)
     /\ In (Name id) targets
     /\ get_full_name arg0 = Ok full
     /\ In r registry
     /\ fires r (mkFieldInfo id arg0 (last (PyStr.split "." full) "") full)
        = Ok true
     /\ d = diagnostic_of l c
              (mkFieldInfo id arg0 (last (PyStr.split "." full) "") full) r
     /\ line d = l
     /\ column d = c)
  /\ (parser_positions t -> (1 <= line d /\ 0 <= column d)%Z).
Proof.
  unfold run, init; simpl. intros H.
  apply for_each_yielded_In in H. destruct H as (n & Hn & H).
  apply check_node_origin in H.
  destruct H as (l & c & targets & func & arg0 & args & kws & id & full & r
                 & -> & Hid & Hfull & Hr & Hf & ->).
  split.
  - exists l, c, targets, func, arg0, args, kws, id, full, r.
    repeat split; assumption.
  - intros Hp. exact (Hp _ _ _ _ Hn).
Qed.

Lemma created_parser_positions : parser_positions Samples.created.
Proof.
  intros l c targets value H. vm_compute in H.
  repeat (destruct H as [H|H]; [inversion H; lia|]). contradiction.
Defined.

Lemma diagnostic_position_witness :
  (exists l c targets func arg0 args kws id full r,
     In (Assign l c targets (Call func (arg0 :: args) kws))
        (walk Samples.created)
     /\ In (Name id) targets
     /\ get_full_name arg0 = Ok full
     /\ In r registry
     /\ fires r (mkFieldInfo id arg0 (last (PyStr.split "." full) "") full)
        = Ok true
     /\ diagnostic_of 1 0
          (mkFieldInfo "created" (Call (Name "DateTime") [] [])
             "DateTime" "DateTime") STK001
        = diagnostic_of l c
            (mkFieldInfo id arg0 (last (PyStr.split "." full) "") full) r
     /\ 1%Z = l
     /\ 0%Z = c)
  /\ (1 <= 1 /\ 0 <= 0)%Z.
Proof.
  destruct (diagnostic_position Samples.created "models.py"
              (diagnostic_of 1 0
                 (mkFieldInfo "created" (Call (Name "DateTime") [] [])
                    "DateTime" "DateTime") STK001)) as [H1 H2].
  - vm_compute. left. reflexivity.
  - split; [exact H1|exact (H2 created_parser_positions)].
Defined.

(** C4, refuted as stated: the module-level statement
    [created = Column(DateTime())] sits at line 1, column offset 0, and its
    diagnostic carries column 0, which is not a 1-based column. *)
Lemma column_not_one_based :
  parser_positions Samples.created
  /\ map column (yielded (run (init Samples.created "models.py"))) = [0%Z]
  /\ ~ Forall (fun d => (1 <= column d)%Z)
         (yielded (run (init Samples.created "models.py"))).
Proof.
  split; [|split].
  - exact created_parser_positions.
  - reflexivity.
  - intros H. vm_compute in H. inversion H as [|? ? Hd _]. apply Hd. reflexivity.
Qed.

(** ** Which nodes give field descriptors *)

Lemma built_andThen (a b : outcome) : built a <> [] -> built (a ;; b) <> [].
Proof.
  unfold andThen. destruct (raised a); [easy|]. cbn [built].
  destruct (built a); [easy|discriminate].
Qed.

Lemma check_targets_built (rs : list Rule) (l c : Z) (arg0 : node)
    (full : string) (targets : list node) :
  get_full_name arg0 = Ok full ->
  target_names targets <> [] ->
  built (for_each targets (check_target rs l c arg0)) <> [].
Proof.
  intros Hfull. induction targets as [|t ts IH]; [now intros []|].
  destruct t; cbn [for_each check_target target_names flat_map app];
    try (rewrite andThen_done_l; exact IH).
  intros _. unfold get_base_type_name. rewrite Hfull. cbn [bind eval].
  apply built_andThen. unfold andThen. cbn [construct raised built app].
  discriminate.
Qed.

(** C5 (as the code has it).  A node gives at least one field descriptor
    if and only if it is an assignment whose right-hand side is a call with
    at least one positional argument, at least one of whose targets is a
    simple name, and whose first positional argument is resolvable; the
    number of targets does not matter.  An assignment none of whose targets
    is a simple name (tuple, attribute, subscript targets) is passed over:
    no descriptor, no diagnostic, no exception. *)
Theorem field_descriptor_iff (n : node) :
  (built (check_node registry n) <> [] <->
   exists l c targets func arg0 args kws,
     n = Assign l c targets (Call func (arg0 :: args) kws)
     /\ target_names targets <> []
     /\ resolvable arg0 = true)
  /\ (forall l c targets value,
        n = Assign l c targets value ->
        target_names targets = [] ->
        check_node registry n = done).
Proof.
  split.
  - split.
    + destruct n as [| | |l c targets value|]; try (now intros []).
      destruct value as [| |func [|arg0 args] kws| |]; try (now intros []).
      cbn [check_node]. intros H.
      exists l, c, targets, func, arg0, args, kws.
      split; [reflexivity|].
      assert (target_names targets <> []) as Hn.
      { intros E. apply H. now rewrite check_targets_no_names. }
      split; [exact Hn|].
      destruct (resolvable arg0) eqn:E; [reflexivity|].
      destruct (unresolvable_full_name arg0 E) as [k Hk].
      exfalso. apply H.
      now rewrite (check_targets_unresolvable _ _ _ _ _ _ Hk Hn).
    + intros (l & c & targets & func & arg0 & args & kws & -> & Hn & Hr).
      destruct (resolvable_full_name arg0 Hr) as [full Hfull].
      cbn [check_node]. now apply (check_targets_built _ _ _ _ full).
  - intros l c targets value -> Hn.
    destruct value as [| |func [|arg0 args] kws| |]; try reflexivity.
    cbn [check_node]. now apply check_targets_no_names.
Qed.

Lemma field_descriptor_iff_witness :
  built (check_node registry Samples.chained_stmt) <> []
  /\ check_node registry Samples.unpacking = done.
Proof.
  split.
  - apply (proj1 (field_descriptor_iff Samples.chained_stmt)).
    exists 1%Z, 0%Z, [Name "a"; Name "b"], (Name "Column"),
      (Name "DateTime"), [], [].
    repeat split. discriminate.
  - apply (proj2 (field_descriptor_iff Samples.unpacking)
             1%Z 0%Z [Samples.Tuple [Name "x"; Name "y"]]
             (Samples.Column (Name "DateTime"))); reflexivity.
Defined.

(** C5, refuted as stated: the chained assignment [a = b = Column(DateTime)]
    is not a single-target assignment, and it gives two field descriptors. *)
Lemma several_targets_give_descriptors :
  map name (built (check_node registry Samples.chained_stmt)) = ["a"; "b"]
  /\ ~ (exists l c target value,
          Samples.chained_stmt = Assign l c [target] value).
Proof.
  split; [reflexivity|].
  intros (l & c & target & value & H). discriminate H.
Qed.

(** ** The resolver *)

(** C6.  [Name(id)] resolves to [id]; [Attribute(base, attr)] to the name
    of [base], a dot and [attr], or to [attr] alone when the name of [base]
    is empty; [Call(callee, ...)] to the name of [callee], its arguments
    ignored; the base name is the last dot-separated segment of the
    qualified name; and for every type expression whose names are
    identifiers, as in every parsed tree, that is the last non-empty
    segment of the qualified name. *)
Theorem resolver_equations :
  (forall id, get_full_name (Name id) = Ok id)
  /\ (forall base attr q,
        get_full_name base = Ok q ->
        get_full_name (Attribute base attr)
        = Ok (if String.eqb q "" then attr else (q ++ "." ++ attr)%string))
  /\ (forall callee args keywords,
        get_full_name (Call callee args keywords) = get_full_name callee)
  /\ (forall n q,
        get_full_name n = Ok q ->
        get_base_type_name n = Ok (last (PyStr.split "." q) "")
        /\ (last (PyStr.split "." q) "" <> ""
            -> last (PyStr.split "." q) "" = last_nonempty_segment q))
  /\ (forall n q,
        parsed_names n = true ->
        get_full_name n = Ok q ->
        get_base_type_name n = Ok (last_nonempty_segment q)
        /\ last_nonempty_segment q <> "").
Proof.
  split; [reflexivity|]. split; [|split; [reflexivity|split]].
  - intros base attr q Hq. cbn [get_full_name]. rewrite Hq. cbn [bind].
    rewrite format_dotted. destruct q; reflexivity.
  - intros n q Hq. split; [now apply base_type_of_full_name|].
    intros Hne. unfold last_nonempty_segment. symmetry.
    apply last_filter_truthy.
    destruct (last (PyStr.split "." q) ""); [congruence|reflexivity].
  - intros n q Hp Hq. pose proof (parsed_base_name n q Hp Hq) as Ht.
    unfold last_nonempty_segment. rewrite (last_filter_truthy _ Ht).
    split; [now apply base_type_of_full_name|].
    intros E. rewrite E in Ht. discriminate.
Qed.

Lemma resolver_equations_witness :
  get_full_name (Attribute (Name "sqlalchemy") "DateTime")
  = Ok "sqlalchemy.DateTime"
  /\ get_base_type_name (Call (Attribute (Name "sqlalchemy") "DateTime") [] [])
     = Ok (last_nonempty_segment "sqlalchemy.DateTime")
  /\ last_nonempty_segment "sqlalchemy.DateTime" <> "".
Proof.
  destruct resolver_equations as (_ & Hattr & _ & _ & Hparsed).
  split.
  - apply (Hattr (Name "sqlalchemy") "DateTime" "sqlalchemy"). reflexivity.
  - apply (Hparsed (Call (Attribute (Name "sqlalchemy") "DateTime") [] [])
             "sqlalchemy.DateTime"); reflexivity.
Defined.

(** Outside parsed trees: an attribute node built by hand with the empty
    string as [attr] (no source text parses to one) has the qualified name
    ["a."], whose last segment, the base name, is empty. *)
Example empty_attribute :
  get_full_name (Attribute (Name "a") "") = Ok "a."
  /\ get_base_type_name (Attribute (Name "a") "") = Ok ""
  /\ parsed_names (Attribute (Name "a") "") = false.
Proof. repeat split. Qed.

(** ** Several targets *)

Lemma check_targets_total (rs : list Rule) (l c : Z) (arg0 : node)
    (full : string) (targets : list node) :
  get_full_name arg0 = Ok full ->
  let mk := fun id =>
    mkFieldInfo id arg0 (last (PyStr.split "." full) "") full in
  (forall id r, In r rs -> exists b, fires r (mk id) = Ok b) ->
  for_each targets (check_target rs l c arg0)
  = mkOutcome
      (map mk (target_names targets))
      (flat_map (fun f => map (diagnostic_of l c f) (filter (fired f) rs))
                (map mk (target_names targets)))
      None.
Proof.
  intros Hfull mk Htotal. induction targets as [|t ts IH]; [reflexivity|].
  cbn [for_each]. rewrite IH. clear IH.
  destruct t; try reflexivity.
  unfold check_target, get_base_type_name. rewrite Hfull. cbn [bind eval].
  fold (mk id). rewrite check_rules_completes by (apply Htotal).
  reflexivity.
Qed.

(** C10 (as the code has it).  For an assignment with any number of targets
    whose type expression resolves to a base type other than ["bool"]: one
    field descriptor per simple-name target, in target order, all with the
    same type; each is checked against the whole registry, the rules that
    fire giving its diagnostics in registration order; no exception; and
    every diagnostic carries the line and column of the assignment. *)
Theorem chained_assignment (l c : Z) (targets : list node)
    (func arg0 : node) (args kws : list node) (full : string) :
  get_full_name arg0 = Ok full ->
  last (PyStr.split "." full) "" <> "bool" ->
  let o := check_node registry
             (Assign l c targets (Call func (arg0 :: args) kws)) in
  built o
  = map (fun id => mkFieldInfo id arg0 (last (PyStr.split "." full) "") full)
        (target_names targets)
  /\ yielded o
     = flat_map (fun f => map (diagnostic_of l c f)
                              (filter (fired f) registry))
                (built o)
  /\ raised o = None
  /\ Forall (fun d => line d = l /\ column d = c) (yielded o).
Proof.
  intros Hfull Hbool o.
  assert (o = for_each targets (check_target registry l c arg0)) as Ho
    by reflexivity.
  rewrite (check_targets_total registry l c arg0 full targets Hfull) in Ho.
  - repeat split; try (rewrite Ho; reflexivity).
    apply Forall_forall. intros d Hd.
    apply (check_node_position registry
             (Assign l c targets (Call func (arg0 :: args) kws)) d) in Hd.
    destruct Hd as (l' & c' & ? & ? & E & Hl & Hc).
    injection E as <- <- _ _. now split.
  - intros id r Hr. apply registry_total; [|exact Hr].
    cbn [base_type]. now apply String.eqb_neq.
Qed.

Lemma chained_assignment_witness :
  map name (built (check_node registry Samples.chained_stmt)) = ["a"; "b"]
  /\ raised (check_node registry Samples.chained_stmt) = None
  /\ Forall (fun d => line d = 1%Z /\ column d = 0%Z)
       (yielded (check_node registry Samples.chained_stmt)).
Proof.
  destruct (chained_assignment 1 0 [Name "a"; Name "b"] (Name "Column")
              (Name "DateTime") [] [] "DateTime")
    as (Hb & _ & Hr & Hp).
  - reflexivity.
  - discriminate.
  - split; [|split].
    + unfold Samples.chained_stmt, Samples.Column. rewrite Hb. reflexivity.
    + exact Hr.
    + exact Hp.
Defined.

(** C10, refuted as stated: in [a = b = int("3")] both targets are simple
    names, yet no field descriptor is built: resolving the literal raises
    [ValueError] at the first target. *)
Lemma chained_unresolvable_gives_none :
  target_names [Name "a"; Name "b"] = ["a"; "b"]
  /\ built (check_node registry Samples.chained_literal) = []
  /\ raised (check_node registry Samples.chained_literal)
     = Some (ValueError "Constant").
Proof. repeat split. Qed.


(** * Further properties of the program *)

(** ** The rule table as a decision table *)

Lemma fired_registry (f : FieldInfo) :
  String.eqb (base_type f) "bool" = false ->
  filter (fired f) registry = decision (name f) (base_type f) (full_type f).
Proof.
  intros Hb. unfold registry, decision, id_like. cbn [filter]. unfold fired.
  rewrite fires_STK001, fires_STK002, fires_STK003, fires_STK004,
          fires_STK005, Hb.
  repeat match goal with |- context [if ?b && ?b' then _ else _] =>
    destruct (b && b') end; reflexivity.
Qed.

Lemma check_target_resolved (rs : list Rule) (l c : Z) (arg0 : node)
    (full id : string) :
  get_full_name arg0 = Ok full ->
  check_target rs l c arg0 (Name id)
  = (construct (mkFieldInfo id arg0 (last (PyStr.split "." full) "") full) ;;
     check_rules rs l c
       (mkFieldInfo id arg0 (last (PyStr.split "." full) "") full)).
Proof.
  intros H. unfold check_target, get_base_type_name. rewrite H. reflexivity.
Qed.

(** The complete table for one declaration whose type is not ["bool"]. *)
Lemma check_target_decision (l c : Z) (arg0 : node) (full id : string) :
  get_full_name arg0 = Ok full ->
  String.eqb (last (PyStr.split "." full) "") "bool" = false ->
  let f := mkFieldInfo id arg0 (last (PyStr.split "." full) "") full in
  check_target registry l c arg0 (Name id)
  = mkOutcome [f]
      (map (diagnostic_of l c f)
           (decision id (last (PyStr.split "." full) "") full))
      None.
Proof.
  intros Hfull Hb f. rewrite (check_target_resolved _ _ _ _ _ _ Hfull).
  fold f. rewrite (check_rules_completes registry l c f)
    by (apply registry_total; exact Hb).
  rewrite (fired_registry f Hb). reflexivity.
Qed.

Lemma type_is_not_id_like : id_like "type" = false.
Proof. reflexivity. Qed.

Lemma base_type_resolved (arg0 : node) (base : string) :
  get_base_type_name arg0 = Ok base ->
  exists full,
    get_full_name arg0 = Ok full /\ last (PyStr.split "." full) "" = base.
Proof.
  unfold get_base_type_name.
  destruct (get_full_name arg0) as [full|e]; [|discriminate].
  cbn [bind]. intros [= <-]. now exists full.
Qed.

(** STK002.  A declaration whose type resolves to the base type ["Date"]
    gets exactly one STK002 diagnostic, at the assignment's position, when
    its name does not end in ["_date"], and none when it does; the rule loop
    raises nothing. *)
Theorem date_field_STK002 (l c : Z) (arg0 : node) (id : string) :
  get_base_type_name arg0 = Ok "Date" ->
  let o := check_target registry l c arg0 (Name id) in
  raised o = None
  /\ filter (has_code "STK002") (yielded o)
     = if PyStr.endswith id "_date"
       then []
       else [mkDiagnostic l c
               ("STK002: " ++ PyStr.format (message STK002) [id])
               PluginClass].
Proof.
  intros Hbase o. subst o.
  destruct (base_type_resolved _ _ Hbase) as (full & Hfull & Hlast).
  rewrite (check_target_decision l c arg0 full id Hfull)
    by (rewrite Hlast; reflexivity).
  split; [reflexivity|]. rewrite Hlast. cbn [yielded]. unfold decision.
  cbn [String.eqb Ascii.eqb Bool.eqb andb app].
  destruct (PyStr.endswith id "_date");
    destruct (String.eqb id "type" && _);
    destruct (id_like id && _);
    reflexivity.
Qed.

Lemma date_field_STK002_witness :
  raised (check_target registry 7 4 (Attribute (Name "sa") "Date")
            (Name "birthday")) = None
  /\ filter (has_code "STK002")
       (yielded (check_target registry 7 4 (Attribute (Name "sa") "Date")
                   (Name "birthday")))
     = [mkDiagnostic 7 4
          ("STK002: " ++ PyStr.format (message STK002) ["birthday"])
          PluginClass].
Proof.
  apply (date_field_STK002 7 4 (Attribute (Name "sa") "Date") "birthday").
  reflexivity.
Defined.

(** STK003.  For a declaration whose type resolves to a base type other
    than ["bool"]: it gets exactly one STK003 diagnostic when it is named
    ["type"] and its qualified type is not literally ["sqlalchemy.Enum"]
    (so [sa.Enum] and a bare [Enum] are reported), and none otherwise. *)
Theorem type_field_STK003 (l c : Z) (arg0 : node) (full id : string) :
  get_full_name arg0 = Ok full ->
  last (PyStr.split "." full) "" <> "bool" ->
  filter (has_code "STK003")
    (yielded (check_target registry l c arg0 (Name id)))
  = if String.eqb id "type" && negb (String.eqb full "sqlalchemy.Enum")
    then [mkDiagnostic l c
            ("STK003: " ++ PyStr.format (message STK003) [id])
            PluginClass]
    else [].
Proof.
  intros Hfull Hb. apply String.eqb_neq in Hb.
  rewrite (check_target_decision l c arg0 full id Hfull Hb).
  cbn [yielded]. unfold decision.
  destruct (String.eqb _ "DateTime" && _);
    destruct (String.eqb _ "Date" && _);
    destruct (String.eqb id "type" && _);
    destruct (id_like id && _);
    reflexivity.
Qed.

Lemma type_field_STK003_witness :
  filter (has_code "STK003")
    (yielded (check_target registry 3 4
                (Call (Attribute (Name "sa") "Enum") [Name "Kind"] [])
                (Name "type")))
  = [mkDiagnostic 3 4
       ("STK003: " ++ PyStr.format (message STK003) ["type"]) PluginClass].
Proof.
  apply (type_field_STK003 3 4
           (Call (Attribute (Name "sa") "Enum") [Name "Kind"] [])
           "sa.Enum" "type").
  - reflexivity.
  - discriminate.
Defined.

(** STK004.  For a declaration whose type resolves to a base type other
    than ["bool"]: it gets exactly one STK004 diagnostic when its name is
    ["id"], ends in ["_id"] or starts with ["id_"] and its qualified type is
    not literally ["sqlalchemy.UUID"], and none otherwise. *)
Theorem id_field_STK004 (l c : Z) (arg0 : node) (full id : string) :
  get_full_name arg0 = Ok full ->
  last (PyStr.split "." full) "" <> "bool" ->
  filter (has_code "STK004")
    (yielded (check_target registry l c arg0 (Name id)))
  = if id_like id && negb (String.eqb full "sqlalchemy.UUID")
    then [mkDiagnostic l c
            ("STK004: " ++ PyStr.format (message STK004) [id])
            PluginClass]
    else [].
Proof.
  intros Hfull Hb. apply String.eqb_neq in Hb.
  rewrite (check_target_decision l c arg0 full id Hfull Hb).
  cbn [yielded]. unfold decision.
  destruct (String.eqb _ "DateTime" && _);
    destruct (String.eqb _ "Date" && _);
    destruct (String.eqb id "type" && _);
    destruct (id_like id && _);
    reflexivity.
Qed.

Lemma id_field_STK004_witness :
  filter (has_code "STK004")
    (yielded (check_target registry 5 4 (Call (Name "Integer") [] [])
                (Name "user_id")))
  = [mkDiagnostic 5 4
       ("STK004: " ++ PyStr.format (message STK004) ["user_id"])
       PluginClass].
Proof.
  apply (id_field_STK004 5 4 (Call (Name "Integer") [] []) "Integer"
           "user_id").
  - reflexivity.
  - discriminate.
Defined.

(** A declaration no rule is about -- its base type is none of
    ["DateTime"], ["Date"], ["bool"], it is not named ["type"] and its name
    is not id-like -- is recorded and yields nothing. *)
Theorem unremarkable_field_is_silent (l c : Z) (arg0 : node)
    (full id : string) :
  get_full_name arg0 = Ok full ->
  last (PyStr.split "." full) "" <> "DateTime" ->
  last (PyStr.split "." full) "" <> "Date" ->
  last (PyStr.split "." full) "" <> "bool" ->
  id <> "type" ->
  id_like id = false ->
  check_target registry l c arg0 (Name id)
  = mkOutcome
      [mkFieldInfo id arg0 (last (PyStr.split "." full) "") full] [] None.
Proof.
  intros Hfull H1 H2 H3 H4 H5.
  apply String.eqb_neq in H1, H2, H3, H4.
  rewrite (check_target_decision l c arg0 full id Hfull H3).
  unfold decision. rewrite H1, H2, H4, H5. reflexivity.
Qed.

Lemma unremarkable_field_is_silent_witness :
  check_target registry 1 0 (Call (Name "String") [Name "n"] [])
    (Name "title")
  = mkOutcome
      [mkFieldInfo "title" (Call (Name "String") [Name "n"] [])
         "String" "String"] [] None.
Proof.
  apply (unremarkable_field_is_silent 1 0
           (Call (Name "String") [Name "n"] []) "String" "title");
    [reflexivity|discriminate..|reflexivity].
Defined.

(** What the rule loop does on a ["bool"] field: STK003 and STK004 are
    decided, then STK005 raises. *)
Lemma check_rules_bool (l c : Z) (f : FieldInfo) :
  base_type f = "bool" ->
  check_rules registry l c f
  = mkOutcome []
      (map (diagnostic_of l c f) (decision (name f) "bool" (full_type f)))
      (Some (AttributeError "str" "startwith")).
Proof.
  intros Hb. unfold check_rules, registry, decision, id_like.
  cbn [for_each].
  rewrite fires_STK001, fires_STK002, fires_STK003, fires_STK004,
          fires_STK005, Hb.
  cbn [String.eqb Ascii.eqb Bool.eqb andb eval app].
  destruct (_ && _); destruct (_ && _); reflexivity.
Qed.

Lemma decision_length (id base full : string) :
  (List.length (decision id base full) <= 2)%nat.
Proof.
  unfold decision.
  destruct (String.eqb_spec base "DateTime") as [->|_];
    destruct (String.eqb_spec id "type") as [->|_];
    cbn [String.eqb Ascii.eqb Bool.eqb andb app];
    rewrite ?type_is_not_id_like; cbn [andb app];
    repeat match goal with |- context [if ?b then _ else _] =>
      destruct b end;
    cbn; lia.
Qed.

(** No target of any assignment gets more than two diagnostics: STK001 and
    STK002 exclude each other (one base type), so do STK003 and STK004 (the
    name ["type"] is not id-like), and STK005 yields nothing. *)
Theorem at_most_two_diagnostics (l c : Z) (arg0 target : node) :
  (List.length (yielded (check_target registry l c arg0 target)) <= 2)%nat.
Proof.
  destruct target as [id| | | |]; try (cbn; lia).
  destruct (get_full_name arg0) as [full|e] eqn:Hfull.
  - rewrite (check_target_resolved _ _ _ _ _ _ Hfull).
    destruct (String.eqb_spec (last (PyStr.split "." full) "") "bool")
      as [Hb|Hb].
    + rewrite check_rules_bool by exact Hb.
      cbn [andThen construct raised yielded app name full_type].
      rewrite length_map. apply decision_length.
    + rewrite (check_rules_completes registry l c)
        by (apply registry_total; now apply String.eqb_neq).
      rewrite fired_registry by (now apply String.eqb_neq).
      cbn [andThen construct raised yielded app name full_type base_type].
      rewrite length_map. apply decision_length.
  - unfold check_target, get_base_type_name. rewrite Hfull. cbn. lia.
Qed.

(** The whole of what happens to one declaration whose type expression
    resolves: its descriptor is recorded; the rules of the table that apply
    give its diagnostics, in the table's order; and the pass ends normally
    unless the base type is ["bool"], in which case STK005 raises after
    STK003 and STK004 have had their say. *)
Theorem declaration_outcome (l c : Z) (arg0 : node) (full id : string) :
  get_full_name arg0 = Ok full ->
  let base := last (PyStr.split "." full) "" in
  let f := mkFieldInfo id arg0 base full in
  check_target registry l c arg0 (Name id)
  = mkOutcome [f]
      (map (diagnostic_of l c f) (decision id base full))
      (if String.eqb base "bool"
       then Some (AttributeError "str" "startwith")
       else None).
Proof.
  intros Hfull base f.
  destruct (String.eqb_spec base "bool") as [Hb|Hb].
  - rewrite (check_target_resolved _ _ _ _ _ _ Hfull). fold base. fold f.
    rewrite (check_rules_bool l c f Hb). cbn [name full_type f].
    rewrite Hb. reflexivity.
  - apply check_target_decision; [exact Hfull|now apply String.eqb_neq].
Qed.

Lemma declaration_outcome_witness :
  check_target registry 4 8 (Name "DateTime") (Name "id")
  = mkOutcome
      [mkFieldInfo "id" (Name "DateTime") "DateTime" "DateTime"]
      (map (diagnostic_of 4 8
              (mkFieldInfo "id" (Name "DateTime") "DateTime" "DateTime"))
           [STK001; STK004])
      None.
Proof.
  apply (declaration_outcome 4 8 (Name "DateTime") "DateTime" "id").
  reflexivity.
Defined.

(** ** Breadth-first and document order visit the same nodes *)

Lemma preorder_children (n : node) :
  preorder n = n :: flat_map preorder (iter_child_nodes n).
Proof.
  destruct n; cbn [preorder iter_child_nodes flat_map];
    rewrite ?flat_map_app; cbn [flat_map]; rewrite ?app_nil_r; reflexivity.
Qed.

Lemma walk_queue_preorder (n : nat) (q : list node) :
  queue_size q <= n ->
  Permutation (walk_queue q) (flat_map preorder q).
Proof.
  revert q. induction n as [|n IH]; intros q Hq.
  - destruct q as [|x q]; [constructor|].
    exfalso. unfold queue_size in Hq. cbn in Hq. destruct x; cbn in Hq; lia.
  - destruct q as [|x q]; [constructor|].
    simp walk_queue. cbn [flat_map]. rewrite preorder_children.
    cbn [app]. constructor.
    rewrite IH.
    + rewrite flat_map_app. apply Permutation_app_comm.
    + rewrite queue_size_app.
      change (queue_size (x :: q)) with (node_size x + queue_size q) in Hq.
      rewrite node_size_children in Hq. lia.
Qed.

Lemma walk_queue_length (n : nat) (q : list node) :
  queue_size q <= n -> List.length (walk_queue q) = queue_size q.
Proof.
  revert q. induction n as [|n IH]; intros q Hq.
  - destruct q as [|x q]; [reflexivity|].
    exfalso. unfold queue_size in Hq. cbn in Hq. destruct x; cbn in Hq; lia.
  - destruct q as [|x q]; [reflexivity|].
    simp walk_queue. cbn [List.length].
    change (queue_size (x :: q)) with (node_size x + queue_size q) in *.
    rewrite node_size_children in *.
    rewrite IH; rewrite queue_size_app; lia.
Qed.

Lemma walk_permutation (t : node) : Permutation (walk t) (preorder t).
Proof.
  unfold walk. rewrite (walk_queue_preorder (node_size t) [t]).
  - cbn [flat_map]. now rewrite app_nil_r.
  - unfold queue_size. cbn. lia.
Qed.

(** [ast.walk] reaches exactly the nodes of the tree, each as often as it
    occurs: its visiting sequence is a rearrangement of document order, and
    it has as many entries as the tree has nodes. *)
Theorem walk_visits_every_node (t : node) :
  Permutation (walk t) (preorder t)
  /\ List.length (walk t) = node_size t.
Proof.
  split; [apply walk_permutation|].
  unfold walk. rewrite (walk_queue_length (node_size t) [t]);
    unfold queue_size; cbn; lia.
Qed.

(** ** When a run ends with an exception *)

Lemma for_each_raised_In {A} (xs : list A) (body : A -> outcome) (e : exn) :
  raised (for_each xs body) = Some e ->
  exists x, In x xs /\ raised (body x) = Some e.
Proof.
  induction xs as [|x xs IH]; [discriminate|].
  cbn [for_each]. unfold andThen.
  destruct (raised (body x)) as [e'|] eqn:E.
  - rewrite E. intros [= <-]. exists x. split; [now left|exact E].
  - cbn [raised]. intros H. destruct (IH H) as (y & Hy & Hr).
    exists y. split; [now right|exact Hr].
Qed.

Lemma check_targets_bool (l c : Z) (arg0 : node) (full : string)
    (targets : list node) :
  get_full_name arg0 = Ok full ->
  last (PyStr.split "." full) "" = "bool" ->
  target_names targets <> [] ->
  raised (for_each targets (check_target registry l c arg0))
  = Some (AttributeError "str" "startwith").
Proof.
  intros Hfull Hb. induction targets as [|t ts IH]; [now intros []|].
  destruct t as [id| | | |];
    cbn [for_each target_names flat_map app];
    try (intros H; cbn [check_target]; rewrite andThen_done_l; exact (IH H)).
  intros _. rewrite (check_target_resolved _ _ _ _ _ _ Hfull).
  rewrite check_rules_bool by exact Hb. reflexivity.
Qed.

Lemma check_node_safe (n : node) :
  raised (check_node registry n) = None <-> safe_node n = true.
Proof.
  destruct n as [| | |l c targets value|]; try (split; reflexivity).
  destruct value as [| |func [|arg0 args] kws| |]; try (split; reflexivity).
  cbn [check_node safe_node].
  destruct (target_names targets) as [|id ids] eqn:Hn.
  - rewrite check_targets_no_names by exact Hn. split; reflexivity.
  - assert (target_names targets <> []) as Hne by (rewrite Hn; discriminate).
    unfold get_base_type_name.
    destruct (get_full_name arg0) as [full|e] eqn:Hfull; cbn [bind].
    + destruct (String.eqb_spec (last (PyStr.split "." full) "") "bool")
        as [Hb|Hb]; cbn [negb].
      * rewrite (check_targets_bool l c arg0 full targets Hfull Hb Hne).
        split; discriminate.
      * rewrite (check_targets_total registry l c arg0 full targets Hfull).
        -- split; reflexivity.
        -- intros id' r Hr. apply registry_total; [|exact Hr].
           cbn [base_type]. now apply String.eqb_neq.
    + rewrite (check_targets_unresolvable _ _ _ _ _ _ Hfull Hne).
      split; discriminate.
Qed.

Lemma forallb_permutation {A} (f : A -> bool) (l l' : list A) :
  Permutation l l' -> forallb f l = forallb f l'.
Proof.
  induction 1; cbn; try congruence.
  now rewrite !andb_assoc, (andb_comm (f y)).
Qed.

Lemma check_node_exception (n : node) (e : exn) :
  raised (check_node registry n) = Some e ->
  exists l c targets func arg0 args kws,
    n = Assign l c targets (Call func (arg0 :: args) kws)
    /\ target_names targets <> []
    /\ ((resolvable arg0 = false
         /\ e = ValueError (type_name (spine_end arg0)))
        \/ (get_base_type_name arg0 = Ok "bool"
            /\ e = AttributeError "str" "startwith")).
Proof.
  destruct n as [| | |l c targets value|]; try discriminate.
  destruct value as [| |func [|arg0 args] kws| |]; try discriminate.
  cbn [check_node]. intros H.
  exists l, c, targets, func, arg0, args, kws. split; [reflexivity|].
  assert (target_names targets <> []) as Hne.
  { intros E. rewrite check_targets_no_names in H by exact E. discriminate. }
  split; [exact Hne|].
  destruct (get_full_name arg0) as [full|e'] eqn:Hfull.
  - right.
    destruct (String.eqb_spec (last (PyStr.split "." full) "") "bool")
      as [Hb|Hb].
    + rewrite (check_targets_bool l c arg0 full targets Hfull Hb Hne) in H.
      injection H as <-. split; [|reflexivity].
      unfold get_base_type_name. rewrite Hfull. cbn [bind]. now rewrite Hb.
    + rewrite (check_targets_total registry l c arg0 full targets Hfull) in H.
      * discriminate.
      * intros id' r Hr. apply registry_total; [|exact Hr].
        cbn [base_type]. now apply String.eqb_neq.
  - left.
    rewrite (check_targets_unresolvable _ _ _ _ _ _ Hfull Hne) in H.
    injection H as <-. clear - Hfull.
    induction arg0; cbn [get_full_name spine_end resolvable] in *;
      try discriminate.
    + destruct (get_full_name arg0) as [v|e0]; [discriminate|].
      cbn [bind] in Hfull. auto.
    + auto.
    + split; [reflexivity|]. now injection Hfull as <-.
    + split; [reflexivity|]. now injection Hfull as <-.
Qed.

(** *** With the recursion limit *)

Lemma get_full_name_within_enough (frames : nat) (n : node) :
  spine_depth n < frames ->
  get_full_name_within frames n = get_full_name n.
Proof.
  revert frames. induction n as [id|value IH attr|func IH args kws| |];
    intros [|frames] H; try (cbn in H; lia); try reflexivity.
  - cbn [get_full_name_within get_full_name spine_depth] in *.
    rewrite IH by lia. reflexivity.
  - cbn [get_full_name_within get_full_name spine_depth] in *.
    apply IH. lia.
Qed.

Lemma get_full_name_within_short (frames : nat) (n : node) :
  frames <= spine_depth n ->
  get_full_name_within frames n = Raise RecursionError.
Proof.
  revert n. induction frames as [|frames IH]; intros n H; [reflexivity|].
  destruct n; cbn [spine_depth] in H; try lia;
    cbn [get_full_name_within].
  - rewrite IH by lia. reflexivity.
  - apply IH. lia.
Qed.

Lemma get_base_type_name_within_enough (frames : nat) (n : node) :
  spine_depth n + 2 <= frames ->
  get_base_type_name_within frames n = get_base_type_name n.
Proof.
  intros H. destruct frames as [|frames]; [lia|].
  unfold get_base_type_name_within, get_base_type_name.
  rewrite get_full_name_within_enough by lia. reflexivity.
Qed.

Lemma get_base_type_name_within_short (frames : nat) (n : node) :
  frames < spine_depth n + 2 ->
  get_base_type_name_within frames n = Raise RecursionError.
Proof.
  intros H. destruct frames as [|frames]; [reflexivity|].
  unfold get_base_type_name_within.
  rewrite get_full_name_within_short by lia. reflexivity.
Qed.

Lemma check_node_within_fits (frames : nat) (rs : list Rule) (n : node) :
  fits frames n = true ->
  check_node_within frames rs n = check_node rs n.
Proof.
  destruct n as [| | |l c targets value|]; try reflexivity.
  destruct value as [| |func [|arg0 args] kws| |]; try reflexivity.
  cbn [fits check_node_within check_node]. intros H.
  assert (target_names targets = [] \/ spine_depth arg0 + 2 <= frames)
    as [Hn|Hd].
  { destruct (target_names targets); [now left|right].
    now apply Nat.leb_le. }
  - clear H. induction targets as [|t ts IH]; [reflexivity|].
    destruct t; cbn [target_names flat_map app] in Hn; try discriminate;
      cbn [for_each check_target_within check_target];
      rewrite (IH Hn); reflexivity.
  - clear H. induction targets as [|t ts IH]; [reflexivity|].
    cbn [for_each]. rewrite IH. f_equal.
    destruct t; try reflexivity.
    unfold check_target_within, check_target.
    rewrite get_base_type_name_within_enough by exact Hd.
    rewrite get_full_name_within_enough by lia. reflexivity.
Qed.

Lemma check_node_within_short (frames : nat) (rs : list Rule) (n : node) :
  fits frames n = false ->
  check_node_within frames rs n = throw RecursionError
  /\ exists l c targets func arg0 args kws,
       n = Assign l c targets (Call func (arg0 :: args) kws)
       /\ target_names targets <> []
       /\ frames < spine_depth arg0 + 2.
Proof.
  destruct n as [| | |l c targets value|]; try discriminate.
  destruct value as [| |func [|arg0 args] kws| |]; try discriminate.
  cbn [fits check_node_within]. intros H.
  assert (target_names targets <> [] /\ frames < spine_depth arg0 + 2)
    as [Hn Hd].
  { destruct (target_names targets); [discriminate|].
    split; [discriminate|]. now apply Nat.leb_gt. }
  split.
  - clear H. induction targets as [|t ts IH]; [now destruct Hn|].
    destruct t; cbn [target_names flat_map app] in Hn;
      cbn [for_each check_target_within];
      try (rewrite (IH Hn); reflexivity).
    rewrite get_base_type_name_within_short by exact Hd. reflexivity.
  - exists l, c, targets, func, arg0, args, kws. now repeat split.
Qed.

(** Where the interpreter has frames enough for [ast.walk] and for every
    type expression that is examined, counting frames changes nothing: the
    run under the limit is the run, with the same descriptors, the same
    diagnostics and the same ending. *)
Theorem run_within_enough (walk_frames frames : nat) (self : Plugin) :
  walk_frames <= frames ->
  forallb (fits frames) (walk (tree self)) = true ->
  run_within walk_frames frames self = run self.
Proof.
  intros Hw Hf. unfold run_within, run.
  destruct (Nat.ltb_spec frames walk_frames); [lia|].
  rewrite forallb_forall in Hf.
  induction (walk (tree self)) as [|n ns IH]; [reflexivity|].
  cbn [for_each]. rewrite check_node_within_fits by (apply Hf; now left).
  rewrite IH; [reflexivity|]. intros x Hx. apply Hf. now right.
Qed.

Lemma run_within_enough_witness :
  run_within 3 8 (init Samples.literal "models.py")
  = run (init Samples.literal "models.py").
Proof.
  apply (run_within_enough 3 8 (init Samples.literal "models.py")).
  - lia.
  - reflexivity.
Defined.

Lemma check_node_within_safe (frames : nat) (n : node) :
  raised (check_node_within frames registry n) = None
  <-> fits frames n && safe_node n = true.
Proof.
  destruct (fits frames n) eqn:Hf; cbn [andb].
  - rewrite (check_node_within_fits _ _ _ Hf). apply check_node_safe.
  - destruct (check_node_within_short _ registry _ Hf) as [-> _].
    split; discriminate.
Qed.

(** The exact condition under which a run ends normally, [frames] being
    the nested frames the interpreter still allows below [run]: [ast.walk]
    has the frames it takes, and nowhere in the tree is there an assignment
    of a call with a positional argument to a simple name whose type
    expression is too deep to resolve in [frames] frames, fails to resolve,
    or resolves to the base type ["bool"]. *)
Theorem run_completes_iff (walk_frames frames : nat) (t : node)
    (file : string) :
  raised (run_within walk_frames frames (init t file)) = None
  <-> walk_frames <= frames
      /\ forallb (fun n => fits frames n && safe_node n) (preorder t) = true.
Proof.
  rewrite <- (forallb_permutation _ (walk t) (preorder t))
    by apply walk_permutation.
  unfold run_within, init; cbn [tree rules].
  destruct (Nat.ltb_spec frames walk_frames) as [Hlt|Hge].
  - split; [discriminate|]. intros [H _]. lia.
  - rewrite forallb_forall. split.
    + intros H. split; [exact Hge|]. intros n Hn.
      apply check_node_within_safe.
      now apply (for_each_completes _ _ H).
    + intros [_ H]. apply for_each_all_complete. intros n Hn.
      apply check_node_within_safe, H, Hn.
Qed.

Lemma run_completes_iff_witness :
  raised (run_within 3 8 (init Samples.nested "models.py")) = None.
Proof.
  apply (proj2 (run_completes_iff 3 8 Samples.nested "models.py")).
  split; [lia|reflexivity].
Defined.

(** The exceptions a run can end with, and what brings each about:
    [RecursionError] when [ast.walk] lacks its frames or the type
    expression of an examined assignment is too deep for the frames left;
    otherwise the resolver's [ValueError], naming the class of the node it
    could not resolve, or the [AttributeError] of the misspelt [startwith]
    for a type of base name ["bool"]. *)
Theorem run_exception_kinds (walk_frames frames : nat) (t : node)
    (file : string) (e : exn) :
  raised (run_within walk_frames frames (init t file)) = Some e ->
  (frames < walk_frames /\ e = RecursionError)
  \/ (exists l c targets func arg0 args kws,
        In (Assign l c targets (Call func (arg0 :: args) kws)) (walk t)
        /\ target_names targets <> []
        /\ ((frames < spine_depth arg0 + 2 /\ e = RecursionError)
            \/ (spine_depth arg0 + 2 <= frames
                /\ resolvable arg0 = false
                /\ e = ValueError (type_name (spine_end arg0)))
            \/ (spine_depth arg0 + 2 <= frames
                /\ get_base_type_name arg0 = Ok "bool"
                /\ e = AttributeError "str" "startwith"))).
Proof.
  unfold run_within, init; cbn [tree rules].
  destruct (Nat.ltb_spec frames walk_frames) as [Hlt|Hge].
  - intros [= <-]. now left.
  - intros H. right.
    apply for_each_raised_In in H. destruct H as (n & Hn & H).
    destruct (fits frames n) eqn:Hf.
    + rewrite (check_node_within_fits _ _ _ Hf) in H.
      apply check_node_exception in H.
      destruct H as (l & c & targets & func & arg0 & args & kws
                     & -> & Hne & H).
      exists l, c, targets, func, arg0, args, kws.
      split; [exact Hn|]. split; [exact Hne|]. right.
      assert (spine_depth arg0 + 2 <= frames) as Hd.
      { cbn [fits] in Hf. destruct (target_names targets);
          [now destruct Hne|now apply Nat.leb_le]. }
      destruct H as [[Hr ->]|[Hb ->]]; [left|right]; now repeat split.
    + destruct (check_node_within_short _ registry _ Hf)
        as [E (l & c & targets & func & arg0 & args & kws & -> & Hne & Hd)].
      rewrite E in H. injection H as <-.
      exists l, c, targets, func, arg0, args, kws.
      split; [exact Hn|]. split; [exact Hne|]. left. now split.
Qed.

Lemma run_exception_kinds_witness :
  (8 < 3 /\ AttributeError "str" "startwith" = RecursionError)
  \/ (exists l c targets func arg0 args kws,
        In (Assign l c targets (Call func (arg0 :: args) kws))
           (walk Samples.active)
        /\ target_names targets <> []
        /\ ((8 < spine_depth arg0 + 2
             /\ AttributeError "str" "startwith" = RecursionError)
            \/ (spine_depth arg0 + 2 <= 8
                /\ resolvable arg0 = false
                /\ AttributeError "str" "startwith"
                   = ValueError (type_name (spine_end arg0)))
            \/ (spine_depth arg0 + 2 <= 8
                /\ get_base_type_name arg0 = Ok "bool"
                /\ AttributeError "str" "startwith"
                   = AttributeError "str" "startwith"))).
Proof.
  apply (run_exception_kinds 3 8 Samples.active "models.py"
           (AttributeError "str" "startwith")).
  reflexivity.
Defined.

(** ** What a diagnostic can be *)

Lemma fires_in_registry (r : Rule) (f : FieldInfo) :
  In r registry -> fires r f = Ok true ->
  In r [STK001; STK002; STK003; STK004].
Proof.
  intros [<-|[<-|[<-|[<-|[<-|[]]]]]] H; cbn [In]; auto.
  exfalso. rewrite fires_STK005 in H.
  destruct (String.eqb (base_type f) "bool"); discriminate.
Qed.

Lemma check_rules_yielded (rs : list Rule) (l c : Z) (f : FieldInfo)
    (d : diagnostic) :
  In d (yielded (check_rules rs l c f)) ->
  exists r, In r rs /\ fires r f = Ok true /\ d = diagnostic_of l c f r.
Proof.
  unfold check_rules. intros H. apply for_each_yielded_In in H.
  destruct H as (r & Hr & H). exists r. split; [exact Hr|].
  destruct (fires r f) as [[|]|]; cbn in H; try contradiction.
  destruct H as [<-|[]]. split; reflexivity.
Qed.

(** Every diagnostic of every run is the message of one of the rules
    STK001 to STK004, about a simple-name target of an assignment of the
    tree, at that assignment's position, tagged with the plugin class.  In
    particular no run ever reports STK005. *)
Theorem diagnostic_shape (t : node) (file : string) (d : diagnostic) :
  In d (yielded (run (init t file))) ->
  exists l c targets value r id,
    In (Assign l c targets value) (walk t)
    /\ In id (target_names targets)
    /\ In r [STK001; STK002; STK003; STK004]
    /\ d = mkDiagnostic l c
             (error_code r ++ ": " ++ PyStr.format (message r) [id])
             PluginClass
    /\ has_code "STK005" d = false.
Proof.
  unfold run, init; cbn [tree rules]. intros H.
  apply for_each_yielded_In in H. destruct H as (n & Hn & H).
  destruct n as [| | |l c targets value|]; try contradiction.
  destruct value as [| |func [|arg0 args] kws| |]; try contradiction.
  cbn [check_node] in H. apply for_each_yielded_In in H.
  destruct H as (tg & Htg & H).
  destruct tg as [id| | | |]; try contradiction.
  destruct (get_full_name arg0) as [full|e] eqn:Hfull.
  - rewrite (check_target_resolved _ _ _ _ _ _ Hfull) in H.
    unfold andThen in H. cbn [construct raised yielded app] in H.
    apply check_rules_yielded in H. destruct H as (r & Hr & Hf & ->).
    pose proof (fires_in_registry r _ Hr Hf) as Hr4.
    exists l, c, targets, (Call func (arg0 :: args) kws), r, id.
    split; [exact Hn|]. split.
    { unfold target_names. apply in_flat_map. exists (Name id).
      split; [exact Htg|now left]. }
    split; [exact Hr4|].
    destruct Hr4 as [<-|[<-|[<-|[<-|[]]]]]; split; reflexivity.
  - unfold check_target, get_base_type_name in H. rewrite Hfull in H.
    contradiction.
Qed.

Lemma diagnostic_shape_witness :
  exists l c targets value r id,
    In (Assign l c targets value) (walk Samples.created)
    /\ In id (target_names targets)
    /\ In r [STK001; STK002; STK003; STK004]
    /\ diagnostic_of 1 0
         (mkFieldInfo "created" (Call (Name "DateTime") [] [])
            "DateTime" "DateTime") STK001
       = mkDiagnostic l c
           (error_code r ++ ": " ++ PyStr.format (message r) [id])
           PluginClass
    /\ has_code "STK005"
         (diagnostic_of 1 0
            (mkFieldInfo "created" (Call (Name "DateTime") [] [])
               "DateTime" "DateTime") STK001) = false.
Proof.
  apply (diagnostic_shape Samples.created "models.py").
  vm_compute. left. reflexivity.
Defined.

(** ** Completed runs and document order *)

(** A run that ends normally reports what a document-order pass would
    report, in another order: the same diagnostics, each as often. *)
Theorem completed_run_same_diagnostics (t : node) (file : string) :
  raised (run (init t file)) = None ->
  Permutation (yielded (run (init t file)))
              (flat_map (fun n => yielded (check_node registry n))
                        (preorder t)).
Proof.
  unfold run, init; cbn [tree rules]. intros H.
  destruct (for_each_completes _ _ H) as (_ & -> & _).
  apply Permutation_flat_map, walk_permutation.
Qed.

Lemma completed_run_same_diagnostics_witness :
  Permutation (yielded (run (init Samples.nested "models.py")))
              (flat_map (fun n => yielded (check_node registry n))
                        (preorder Samples.nested)).
Proof.
  apply (completed_run_same_diagnostics Samples.nested "models.py").
  reflexivity.
Defined.

(** ** The string primitives *)

Lemma str_length_app (q p : string) :
  String.length (q ++ p) = String.length q + String.length p.
Proof. induction q as [|c q IH]; cbn; [|rewrite IH]; reflexivity. Qed.

Lemma substring_whole (p : string) : substring 0 (String.length p) p = p.
Proof. induction p as [|c p IH]; cbn; [|rewrite IH]; reflexivity. Qed.

Lemma substring_after (q p : string) :
  substring (String.length q) (String.length p) (q ++ p) = p.
Proof. induction q as [|c q IH]; cbn; [apply substring_whole|exact IH]. Qed.

Lemma substring_cut (s : string) (n : nat) :
  n <= String.length s ->
  s = (substring 0 n s ++ substring n (String.length s - n) s)%string.
Proof.
  revert n. induction s as [|c s IH]; intros n Hn.
  - destruct n; [reflexivity|cbn in Hn; lia].
  - destruct n as [|n].
    + cbn. now rewrite substring_whole.
    + cbn in *. f_equal. apply IH. lia.
Qed.

(** [endswith] and [startswith] are the suffix and the prefix test. *)
Theorem suffix_prefix_tests (s p : string) :
  (PyStr.endswith s p = true <-> exists q, s = (q ++ p)%string)
  /\ (PyStr.startswith s p = true <-> exists q, s = (p ++ q)%string).
Proof.
  split.
  - unfold PyStr.endswith. rewrite andb_true_iff, Nat.leb_le, String.eqb_eq.
    split.
    + intros [Hle Hsub].
      exists (substring 0 (String.length s - String.length p) s).
      pose proof (substring_cut s (String.length s - String.length p)) as H.
      replace (String.length s - (String.length s - String.length p))
        with (String.length p) in H by lia.
      rewrite Hsub in H. apply H. lia.
    + intros [q ->]. rewrite str_length_app. split; [lia|].
      replace (String.length q + String.length p - String.length p)
        with (String.length q) by lia.
      apply substring_after.
  - unfold PyStr.startswith. revert s.
    induction p as [|a p IH]; intros s.
    + destruct s; cbn; split; eauto.
    + destruct s as [|b s]; cbn.
      * split; [discriminate|]. intros [q Hq]. discriminate.
      * destruct (ascii_dec a b) as [->|Hab].
        -- rewrite IH. split; intros [q Hq]; exists q; congruence.
        -- split; [discriminate|]. intros [q Hq]. congruence.
Qed.

Lemma suffix_prefix_tests_witness :
  PyStr.endswith "created_at" "_at" = true
  /\ PyStr.startswith "id_user" "id_" = true.
Proof.
  split.
  - apply (proj1 (suffix_prefix_tests "created_at" "_at")).
    exists "created". reflexivity.
  - apply (proj2 (suffix_prefix_tests "id_user" "id_")).
    exists "user". reflexivity.
Defined.

(** [split] cuts a string at every separator and nowhere else: joining the
    segments with the separator gives the string back, there is always at
    least one segment, and no segment contains the separator. *)
Theorem split_join (sep : ascii) (s : string) :
  String.concat (String sep "") (PyStr.split sep s) = s
  /\ PyStr.split sep s <> []
  /\ Forall (fun seg => lacks sep seg = true) (PyStr.split sep s).
Proof.
  split; [|split; [apply split_not_nil|]].
  - induction s as [|c s IH]; [reflexivity|].
    cbn [PyStr.split]. destruct (Ascii.eqb_spec c sep) as [->|_].
    + cbn [String.concat].
      destruct (PyStr.split sep s) eqn:E;
        [now destruct (split_not_nil sep s)|].
      cbn [append]. now rewrite IH.
    + destruct (PyStr.split sep s) as [|seg segs] eqn:E;
        [now destruct (split_not_nil sep s)|].
      cbn [String.concat] in *. destruct segs; cbn [append] in *;
        now rewrite IH.
  - induction s as [|c s IH]; [repeat constructor|].
    cbn [PyStr.split]. destruct (Ascii.eqb c sep) eqn:Ec.
    + constructor; [reflexivity|exact IH].
    + destruct (PyStr.split sep s) as [|seg segs].
      * repeat constructor. cbn. now rewrite Ec.
      * inversion IH as [|? ? Hseg Hsegs]. constructor; [|exact Hsegs].
        cbn. now rewrite Ec, Hseg.
Qed.

(** ** More on the resolvers *)

Lemma spine_end_outcome (n : node) :
  match spine_end n with
  | Name _ => exists full, get_full_name n = Ok full
  | culprit => get_full_name n = Raise (ValueError (type_name culprit))
  end.
Proof.
  induction n; cbn [spine_end get_full_name]; try reflexivity.
  - eexists; reflexivity.
  - destruct (spine_end n); try (rewrite IHn; reflexivity).
    destruct IHn as [v ->]. eexists; reflexivity.
  - exact IHn.
Qed.

(** What the resolvers answer, [frames] being the nested frames the
    interpreter still allows: [get_full_name] takes one frame for each node
    on the path it follows and [get_base_type_name] one more; with fewer
    left they raise [RecursionError]; with enough, the node at the end of
    the path decides: if it is a [Name] both return, if not both raise
    [ValueError] naming that node's class, whatever surrounds it. *)
Theorem resolver_outcome (frames : nat) (n : node) :
  (if (frames <=? spine_depth n)%nat
   then get_full_name_within frames n = Raise RecursionError
   else match spine_end n with
        | Name _ =>
            exists full,
              get_full_name_within frames n = Ok full
              /\ get_full_name n = Ok full
        | culprit =>
            get_full_name_within frames n
            = Raise (ValueError (type_name culprit))
        end)
  /\ (if (frames <=? S (spine_depth n))%nat
      then get_base_type_name_within frames n = Raise RecursionError
      else match spine_end n with
           | Name _ =>
               exists full,
                 get_full_name n = Ok full
                 /\ get_base_type_name_within frames n
                    = Ok (last (PyStr.split "." full) "")
           | culprit =>
               get_base_type_name_within frames n
               = Raise (ValueError (type_name culprit))
           end).
Proof.
  pose proof (spine_end_outcome n) as H. split.
  - destruct (Nat.leb_spec frames (spine_depth n)) as [Hs|He].
    + now apply get_full_name_within_short.
    + rewrite get_full_name_within_enough by exact He.
      destruct (spine_end n); try exact H.
      destruct H as [full H]. exists full. now split.
  - destruct (Nat.leb_spec frames (S (spine_depth n))) as [Hs|He].
    + apply get_base_type_name_within_short. lia.
    + rewrite get_base_type_name_within_enough by lia.
      unfold get_base_type_name.
      destruct (spine_end n); try (rewrite H; reflexivity).
      destruct H as [full ->]. exists full. split; reflexivity.
Qed.

(** The base name of an attribute access is decided by the attribute alone:
    whatever resolvable expression stands before the dot, it is the last
    dot-separated segment of the attribute, hence the attribute itself when
    that is an identifier. *)
Theorem attribute_base_name (value : node) (attr q : string) :
  get_full_name value = Ok q ->
  get_base_type_name (Attribute value attr)
  = Ok (last (PyStr.split "." attr) "")
  /\ (lacks "." attr = true ->
      get_base_type_name (Attribute value attr) = Ok attr).
Proof.
  intros Hq.
  assert (get_base_type_name (Attribute value attr)
          = Ok (last (PyStr.split "." attr) "")) as H.
  { unfold get_base_type_name. cbn [get_full_name]. rewrite Hq. cbn [bind].
    destruct q as [|c q]; [reflexivity|]. cbn [PyStr.truthy].
    rewrite format_dotted. f_equal.
    change (String c q ++ "." ++ attr)%string
      with (String c q ++ String "." attr)%string.
    destruct (split_after_separator "." (String c q) attr) as (pre & _ & ->).
    apply last_app_nonempty, split_not_nil. }
  split; [exact H|].
  intros Hl. rewrite H, (lacks_split _ _ Hl). reflexivity.
Qed.

Lemma attribute_base_name_witness :
  get_base_type_name
    (Attribute (Attribute (Name "sqlalchemy") "types") "DateTime")
  = Ok "DateTime".
Proof.
  apply (attribute_base_name (Attribute (Name "sqlalchemy") "types")
           "DateTime" "sqlalchemy.types");
    reflexivity.
Defined.

Lemma check_rules_same_fields (l c : Z) (f g : FieldInfo) :
  name f = name g -> base_type f = base_type g -> full_type f = full_type g ->
  yielded (check_rules registry l c f) = yielded (check_rules registry l c g)
  /\ raised (check_rules registry l c f) = raised (check_rules registry l c g).
Proof.
  intros Hn Hb Hf.
  assert (forall r, diagnostic_of l c f r = diagnostic_of l c g r) as Hd
    by (intros r; unfold diagnostic_of; now rewrite Hn).
  destruct (String.eqb_spec (base_type f) "bool") as [E|E].
  - rewrite (check_rules_bool l c f E).
    rewrite (check_rules_bool l c g) by congruence.
    cbn [yielded raised]. rewrite Hn, Hf. split; [|reflexivity].
    apply map_ext, Hd.
  - apply String.eqb_neq in E.
    rewrite (check_rules_completes registry l c f)
      by (now apply registry_total).
    rewrite (check_rules_completes registry l c g)
      by (apply registry_total; congruence).
    rewrite (fired_registry f E).
    rewrite (fired_registry g) by congruence.
    cbn [yielded raised]. rewrite Hn, Hb, Hf. split; [|reflexivity].
    apply map_ext, Hd.
Qed.

(** Calling the type makes no difference: a declaration typed [T(...)],
    with whatever arguments, yields the same diagnostics and ends the same
    way as the one typed [T]. *)
Theorem called_type_same_diagnostics (l c : Z) (func : node)
    (args keywords : list node) (target : node) :
  yielded (check_target registry l c (Call func args keywords) target)
  = yielded (check_target registry l c func target)
  /\ raised (check_target registry l c (Call func args keywords) target)
     = raised (check_target registry l c func target).
Proof.
  destruct target as [id| | | |]; try (split; reflexivity).
  destruct (get_full_name func) as [full|e] eqn:Hfull.
  - rewrite (check_target_resolved _ l c (Call func args keywords) full id)
      by exact Hfull.
    rewrite (check_target_resolved _ l c func full id Hfull).
    unfold andThen. cbn [construct raised yielded built app].
    apply check_rules_same_fields; reflexivity.
  - unfold check_target, get_base_type_name. cbn [get_full_name].
    rewrite Hfull. split; reflexivity.
Qed.


(** ** The driver's output *)

Lemma uint_lacks_colon (d : Decimal.uint) :
  lacks ":" (NilEmpty.string_of_uint d) = true.
Proof. induction d; cbn; auto. Qed.

Lemma str_of_int_lacks_colon (n : Z) : lacks ":" (str_of_int n) = true.
Proof.
  unfold str_of_int. destruct (Z.to_int n); cbn; apply uint_lacks_colon.
Qed.

Lemma str_of_int_injective (n m : Z) : str_of_int n = str_of_int m -> n = m.
Proof.
  unfold str_of_int. intros H.
  apply (f_equal NilEmpty.int_of_string) in H.
  rewrite !NilEmpty.isi in H. injection H as H.
  rewrite <- (DecimalZ.of_to n), <- (DecimalZ.of_to m). now rewrite H.
Qed.

Lemma cut_at_separator (sep : ascii) (a a' x x' : string) :
  lacks sep a = true -> lacks sep a' = true ->
  (a ++ String sep x)%string = (a' ++ String sep x')%string ->
  a = a' /\ x = x'.
Proof.
  revert a'. induction a as [|c a IH]; intros [|c' a'] Ha Ha' E;
    cbn in *.
  - injection E as ->. now split.
  - injection E as <- _. rewrite Ascii.eqb_refl in Ha'. discriminate.
  - injection E as -> _. rewrite Ascii.eqb_refl in Ha. discriminate.
  - injection E as -> E.
    apply andb_true_iff in Ha, Ha'.
    destruct (IH a' (proj2 Ha) (proj2 Ha') E) as [-> ->]. now split.
Qed.

Lemma print_error_text (d : diagnostic) :
  print_error d
  = (str_of_int (line d) ++ ":" ++ str_of_int (column d) ++ ": " ++ text d)
      %string.
Proof. unfold print_error. cbn. now rewrite append_empty_r. Qed.

Lemma print_error_injective (d d' : diagnostic) :
  print_error d = print_error d' -> d = d'.
Proof.
  rewrite !print_error_text. intros E.
  apply cut_at_separator in E; try apply str_of_int_lacks_colon.
  destruct E as [El E].
  apply cut_at_separator in E; try apply str_of_int_lacks_colon.
  destruct E as [Ec E]. injection E as Et.
  apply str_of_int_injective in El, Ec.
  destruct d as [? ? ? []], d' as [? ? ? []]. cbn in *. congruence.
Qed.

Lemma str_of_int_decimal (n : Z) :
  option_map Z.of_int (NilEmpty.int_of_string (str_of_int n)) = Some n.
Proof.
  unfold str_of_int. rewrite NilEmpty.isi. cbn [option_map].
  now rewrite DecimalZ.of_to.
Qed.

(** The driver prints, for each diagnostic in the order [run] yields them,
    the line [<lineno>:<col_offset>: <text>] -- the line number first, then
    the column offset, both as the decimal numerals that read back as these
    numbers -- and it ends as [run] ends.  Nothing is lost in printing: the
    line determines the diagnostic, so two analyses that print the same
    lines found the same diagnostics in the same order. *)
Theorem main_output_faithful (t : node) (file : string) :
  fst (main t file)
  = map (fun d => (str_of_int (line d) ++ ":" ++ str_of_int (column d)
                   ++ ": " ++ text d)%string)
        (yielded (run (init t file)))
  /\ snd (main t file) = raised (run (init t file))
  /\ (forall n,
        option_map Z.of_int (NilEmpty.int_of_string (str_of_int n)) = Some n)
  /\ (forall t' file',
        fst (main t file) = fst (main t' file') ->
        yielded (run (init t file)) = yielded (run (init t' file'))).
Proof.
  unfold main. cbn [fst snd]. split; [|split; [reflexivity|split]].
  - apply map_ext, print_error_text.
  - apply str_of_int_decimal.
  - intros t' file'.
    generalize (yielded (run (init t file))) as ds.
    generalize (yielded (run (init t' file'))) as ds'.
    intros ds' ds. revert ds'.
    induction ds as [|d ds IH]; intros [|d' ds'] E; try discriminate;
      [reflexivity|].
    cbn [map] in E. injection E as Ed E.
    apply print_error_injective in Ed. subst d'. f_equal. now apply IH.
Qed.

Lemma main_output_faithful_witness :
  yielded (run (init Samples.chained "models.py"))
  = yielded (run (init (Samples.Module_
                          [Samples.chained_stmt; Other "Pass" []])
                       "copy.py")).
Proof.
  apply (main_output_faithful Samples.chained "models.py").
  reflexivity.
Defined.

Example deep_type_expression :
  get_full_name_within 3 (Attribute (Attribute (Name "a") "b") "c")
  = Ok "a.b.c"
  /\ get_full_name_within 2 (Attribute (Attribute (Name "a") "b") "c")
     = Raise RecursionError
  /\ get_base_type_name_within 3 (Attribute (Attribute (Name "a") "b") "c")
     = Raise RecursionError
  /\ raised (run_within 3 3
               (init (Samples.Module_
                        [Assign 1 0 [Name "x"]
                           (Samples.Column
                              (Attribute (Attribute (Name "a") "b") "c"))])
                     "models.py"))
     = Some RecursionError.
Proof. repeat split. Qed.

Example main_created :
  main Samples.created "models.py"
  = (["1:0: STK001: Поле 'created' имеет тип DateTime, должно оканчиваться на '_at' или '_dt'"],
     None).
Proof. reflexivity. Qed.

Example main_nested_lines :
  map (fun s => substring 0 11 s) (fst (main Samples.nested "models.py"))
  = ["3:0: STK001"; "2:4: STK001"].
Proof. reflexivity. Qed.
